(** * Remote-system reconciliation of the PowerStore Ansible module

    A shallow embedding of [plugins/modules/remotesystem.py]: the values the
    module handles (parsed JSON and the module parameters), the calls it
    makes on the array client, and the control flow of
    [perform_module_operation] with its helper methods, followed by the
    properties of the reconciliation. *)

From Stdlib Require Import ZArith List String Bool Lia.
Import ListNotations.
Local Open Scope string_scope.
Local Open Scope list_scope.

#[local] Set Warnings "-register-all".

(** ** Python values *)

(** The values that flow through the module: parsed JSON coming back from
    the array and the (typed) module parameters.  A dict is kept as the list
    of its items in insertion order, as Python iterates it; its keys are
    strings.  JSON floats do not occur in the fields the module reads and are
    left out. *)
Inductive pyval : Type :=
| PNone
| PBool (b : bool)
| PInt (n : Z)
| PStr (s : string)
| PList (l : list pyval)
| PDict (d : list (string * pyval)).

Definition dict : Type := list (string * pyval).

(** [d.get(k)]: the value of the first item with key [k]. *)
Fixpoint dict_get {V : Type} (k : string) (d : list (string * V)) : option V :=
  match d with
  | [] => None
  | (k', v) :: d' => if String.eqb k k' then Some v else dict_get k d'
  end.

(** [d[k] = v]: replaces the value in place, or appends a new item. *)
Fixpoint dict_set {V : Type} (k : string) (v : V) (d : list (string * V))
  : list (string * V) :=
  match d with
  | [] => [(k, v)]
  | (k', v') :: d' =>
      if String.eqb k k' then (k', v) :: d' else (k', v') :: dict_set k v d'
  end.

(** [d.keys()] *)
Definition dict_keys {V : Type} (d : list (string * V)) : list string :=
  map fst d.

(** [k in d.keys()] *)
Definition dict_has {V : Type} (k : string) (d : list (string * V)) : bool :=
  match dict_get k d with Some _ => true | None => false end.

(** Python truthiness, as tested by [if x:] and [not x]. *)
Definition truthy (v : pyval) : bool :=
  match v with
  | PNone => false
  | PBool b => b
  | PInt n => negb (Z.eqb n 0)
  | PStr s => negb (String.eqb s "")
  | PList l => match l with [] => false | _ :: _ => true end
  | PDict d => match d with [] => false | _ :: _ => true end
  end.

(** [x is None] *)
Definition is_None (v : pyval) : bool :=
  match v with PNone => true | _ => false end.

(** Python [==].  A bool compares as the int 0 or 1; lists compare item by
    item; dicts compare as mappings, whatever the order of their items. *)
Fixpoint py_eq (a b : pyval) {struct a} : bool :=
  match a, b with
  | PNone, PNone => true
  | PBool x, PBool y => Bool.eqb x y
  | PBool x, PInt y => Z.eqb (Z.b2z x) y
  | PInt x, PBool y => Z.eqb x (Z.b2z y)
  | PInt x, PInt y => Z.eqb x y
  | PStr x, PStr y => String.eqb x y
  | PList xs, PList ys =>
      (fix items (xs ys : list pyval) {struct xs} : bool :=
         match xs, ys with
         | [], [] => true
         | x :: xs', y :: ys' => py_eq x y && items xs' ys'
         | _, _ => false
         end) xs ys
  | PDict da, PDict db =>
      Nat.eqb (List.length da) (List.length db) &&
      (fix items (da : list (string * pyval)) {struct da} : bool :=
         match da with
         | [] => true
         | (k, v) :: da' =>
             match dict_get k db with
             | Some v' => py_eq v v' && items da'
             | None => false
             end
         end) da
  | _, _ => false
  end.

(** Python [!=] *)
Definition py_ne (a b : pyval) : bool := negb (py_eq a b).

(** ** Python exceptions *)

(** The exceptions the module can meet: the SDK's [PowerStoreException] with
    the two attributes the module inspects, the interpreter's own errors
    raised by indexing and attribute access, and any other exception a
    client call may raise, identified by its text. *)
Inductive pyexn : Type :=
| PowerStoreException (err_code : pyval) (status_code : pyval)
| KeyError (key : pyval)
| IndexError
| TypeError
| AttributeError
| OtherException (text : string).

(** [v[k]] for a string key [k]. *)
Definition py_getitem (v : pyval) (k : string) : pyexn + pyval :=
  match v with
  | PDict d =>
      match dict_get k d with
      | Some x => inr x
      | None => inl (KeyError (PStr k))
      end
  | _ => inl TypeError
  end.

(** [v[0]] *)
Definition py_getitem0 (v : pyval) : pyexn + pyval :=
  match v with
  | PList (x :: _) => inr x
  | PList [] => inl IndexError
  | PStr (String c _) => inr (PStr (String c EmptyString))
  | PStr EmptyString => inl IndexError
  | PDict _ => inl (KeyError (PInt 0))
  | _ => inl TypeError
  end.

(** [v.get(k)] *)
Definition py_get (v : pyval) (k : string) : pyexn + pyval :=
  match v with
  | PDict d =>
      match dict_get k d with
      | Some x => inr x
      | None => inr PNone
      end
  | _ => inl AttributeError
  end.

(** [len(v)] *)
Definition py_len (v : pyval) : pyexn + Z :=
  match v with
  | PList l => inr (Z.of_nat (List.length l))
  | PDict d => inr (Z.of_nat (List.length d))
  | PStr s => inr (Z.of_nat (String.length s))
  | _ => inl TypeError
  end.

(** ** Module parameters *)

(** [self.module.params], typed as the argument specification of
    [get_powerstore_remote_system_parameters] types them: strings unless
    stated otherwise, [None] when the play leaves a parameter out. *)
Record module_params : Type := {
  remote_user : option string;
  remote_password : option string;
  remote_port : Z;
  remote_name : option string;
  remote_id : option string;
  remote_address : option string;
  new_remote_address : option string;
  description : option string;
  network_latency : option string;
  wait_for_completion : option bool;
  state : string
}.

Definition of_ostr (o : option string) : pyval :=
  match o with
  | Some s => PStr s
  | None => PNone
  end.

(** ** The array client *)

(** The calls the module makes on the SDK objects [self.provisioning],
    [self.protection] and [self.configuration], with their arguments. *)
Inductive call : Type :=
| provisioning_get_cluster_list
| protection_get_remote_system_by_mgmt_address (remote_sys_address : pyval)
| protection_get_remote_system_details (remote_sys_id : pyval)
| configuration_exchange_certificate (exchange_cert_dict : dict)
| protection_create_remote_system (create_remote_sys_dict : dict)
| protection_modify_remote_system
    (remote_sys_id : pyval) (modify_dict : dict) (is_async : bool)
| protection_delete_remote_system (remote_sys_id : pyval) (is_async : bool).

(** The array behind the client: what a call answers, a value or an
    exception, given the calls made before it in this run. *)
Definition array_client : Type := list call -> call -> pyexn + pyval.

(** The calls that change the array. *)
Definition is_mutation (c : call) : bool :=
  match c with
  | configuration_exchange_certificate _
  | protection_create_remote_system _
  | protection_modify_remote_system _ _ _
  | protection_delete_remote_system _ _ => true
  | _ => false
  end.

Definition is_exchange (c : call) : bool :=
  match c with configuration_exchange_certificate _ => true | _ => false end.

Definition is_create (c : call) : bool :=
  match c with protection_create_remote_system _ => true | _ => false end.

Definition is_modify (c : call) : bool :=
  match c with protection_modify_remote_system _ _ _ => true | _ => false end.

Definition is_delete (c : call) : bool :=
  match c with protection_delete_remote_system _ _ => true | _ => false end.

(** ** How a run ends *)

(** The messages of [fail_json], by the place that reports them; the
    formatted ones keep the values and the exception they are built from. *)
Inductive failure : Type :=
| No_active_cluster
| Name_without_address_or_id
| Remote_name_not_matching
| Id_or_name_at_creation
| Get_clusters_failed (e : pyexn)
| Get_details_failed (remote_sys_name remote_sys_id : pyval) (e : pyexn)
| Exchange_certificate_failed (e : pyexn)
| Create_failed (e : pyexn)
| Modify_failed (remote_sys_id : pyval) (e : pyexn)
| Delete_failed (remote_sys_id : pyval) (e : pyexn).

(** [exit_json] and [fail_json] both leave the interpreter through
    [SystemExit], which no [except Exception] clause catches. *)
Inductive module_exit : Type :=
| ExitJson (result : dict)
| FailJson (msg : failure).

Inductive outcome (A : Type) : Type :=
| Return (a : A)
| Raise (e : pyexn)
| SystemExit (x : module_exit).

Arguments Return {A} a.
Arguments Raise {A} e.
Arguments SystemExit {A} x.

(** A computation runs after the calls made so far and extends them. *)
Definition M (A : Type) : Type := list call -> outcome A * list call.

Definition ret {A : Type} (a : A) : M A := fun tr => (Return a, tr).

Definition bind {A B : Type} (m : M A) (k : A -> M B) : M B :=
  fun tr =>
    match m tr with
    | (Return a, tr') => k a tr'
    | (Raise e, tr') => (Raise e, tr')
    | (SystemExit x, tr') => (SystemExit x, tr')
    end.

Declare Scope py_scope.
Delimit Scope py_scope with py.
Notation "x <- m ;; k" := (bind m (fun x => k))
  (at level 100, m at next level, right associativity) : py_scope.
Notation "m ;; k" := (bind m (fun _ => k))
  (at level 100, right associativity) : py_scope.
Local Open Scope py_scope.

Definition raise {A : Type} (e : pyexn) : M A := fun tr => (Raise e, tr).

(** The result of a Python operation that may raise. *)
Definition py {A : Type} (r : pyexn + A) : M A :=
  match r with
  | inr a => ret a
  | inl e => raise e
  end.

(** [try: m except Exception as e: handler e] *)
Definition try_except {A : Type} (m : M A) (handler : pyexn -> M A) : M A :=
  fun tr =>
    match m tr with
    | (Raise e, tr') => handler e tr'
    | r => r
    end.

Definition fail_json {A : Type} (msg : failure) : M A :=
  fun tr => (SystemExit (FailJson msg), tr).

Definition exit_json {A : Type} (result : dict) : M A :=
  fun tr => (SystemExit (ExitJson result), tr).

(** ** The module's functions *)

(** [modify_remote_system_required]: the loop over
    [remote_sys_details.keys()]. *)
Fixpoint modification_required_loop
  (keys : list string) (remote_sys_details passed_args : dict) : bool :=
  match keys with
  | [] => false
  | key :: keys' =>
      match dict_get key passed_args with
      | Some arg =>
          match dict_get key remote_sys_details with
          | Some cur =>
              if negb (is_None arg) && py_ne cur arg then true
              else modification_required_loop keys' remote_sys_details passed_args
          | None =>
              (* not reached: [key] is one of the dict's own keys *)
              modification_required_loop keys' remote_sys_details passed_args
          end
      | None => modification_required_loop keys' remote_sys_details passed_args
      end
  end.

(** lines 608-618; [.keys()] raises on a value that is not a dict. *)
Definition modify_remote_system_required
  (remote_sys_details : pyval) (passed_args : dict) : pyexn + bool :=
  match remote_sys_details with
  | PDict d => inr (modification_required_loop (dict_keys d) d passed_args)
  | _ => inl AttributeError
  end.

(** The local variables of [perform_module_operation] that the function
    assigns to after it has read its parameters. *)
Record locals : Type := {
  remote_sys_name : pyval;
  remote_sys_id : pyval;
  remote_sys_address : pyval;
  remote_sys_details : pyval;
  changed : bool;
  job_id : pyval
}.

Definition set_remote_sys_name (l : locals) (v : pyval) : locals :=
  {| remote_sys_name := v; remote_sys_id := remote_sys_id l;
     remote_sys_address := remote_sys_address l;
     remote_sys_details := remote_sys_details l;
     changed := changed l; job_id := job_id l |}.

Definition set_remote_sys_id (l : locals) (v : pyval) : locals :=
  {| remote_sys_name := remote_sys_name l; remote_sys_id := v;
     remote_sys_address := remote_sys_address l;
     remote_sys_details := remote_sys_details l;
     changed := changed l; job_id := job_id l |}.

Definition set_remote_sys_address (l : locals) (v : pyval) : locals :=
  {| remote_sys_name := remote_sys_name l; remote_sys_id := remote_sys_id l;
     remote_sys_address := v;
     remote_sys_details := remote_sys_details l;
     changed := changed l; job_id := job_id l |}.

Definition set_remote_sys_details (l : locals) (v : pyval) : locals :=
  {| remote_sys_name := remote_sys_name l; remote_sys_id := remote_sys_id l;
     remote_sys_address := remote_sys_address l;
     remote_sys_details := v;
     changed := changed l; job_id := job_id l |}.

Definition set_changed (l : locals) (b : bool) : locals :=
  {| remote_sys_name := remote_sys_name l; remote_sys_id := remote_sys_id l;
     remote_sys_address := remote_sys_address l;
     remote_sys_details := remote_sys_details l;
     changed := b; job_id := job_id l |}.

Definition set_job_id (l : locals) (v : pyval) : locals :=
  {| remote_sys_name := remote_sys_name l; remote_sys_id := remote_sys_id l;
     remote_sys_address := remote_sys_address l;
     remote_sys_details := remote_sys_details l;
     changed := changed l; job_id := v |}.

(** lines 501-520: the identifiers as the play gave them, [changed = False],
    [job_id = None]; [remote_sys_details] is assigned by the lookup. *)
Definition collect_input (params : module_params) : locals :=
  {| remote_sys_name := of_ostr (remote_name params);
     remote_sys_id := of_ostr (remote_id params);
     remote_sys_address := of_ostr (remote_address params);
     remote_sys_details := PNone;
     changed := false;
     job_id := PNone |}.

(** lines 513-516 *)
Definition is_async_of (params : module_params) : bool :=
  match wait_for_completion params with
  | Some w => negb w
  | None => true
  end.

(** lines 580-584 *)
Definition modify_remote_sys_dict_of (params : module_params) : dict :=
  [ ("management_address", of_ostr (new_remote_address params));
    ("description", of_ostr (description params));
    ("data_network_latency", of_ostr (network_latency params)) ].

Section RemoteSystem.

(** [utils.PowerStoreException.HTTP_ERR], a constant of the SDK's exception
    class, and the array the client talks to. *)
Variable HTTP_ERR : Z.
Variable client : array_client.

Definition call_client (c : call) : M pyval :=
  fun tr =>
    match client tr c with
    | inr v => (Return v, tr ++ [c])
    | inl e => (Raise e, tr ++ [c])
    end.

(** lines 391-393 *)
Definition is_not_found (e : pyexn) : bool :=
  match e with
  | PowerStoreException err_code status_code =>
      py_eq err_code (PInt HTTP_ERR) && py_eq status_code (PStr "404")
  | _ => false
  end.

(** lines 356-397 *)
Definition get_remote_system_details
  (remote_sys_name remote_sys_address remote_sys_id : pyval) : M pyval :=
  try_except
    (if truthy remote_sys_address then
       resp <- call_client
                 (protection_get_remote_system_by_mgmt_address
                    remote_sys_address) ;;
       if truthy resp then py (py_getitem0 resp)
       else ret resp
     else
       resp <- call_client
                 (protection_get_remote_system_details remote_sys_id) ;;
       if truthy resp then ret resp
       else ret resp)
    (fun e =>
       if is_not_found e then ret PNone
       else fail_json (Get_details_failed remote_sys_name remote_sys_id e)).

(** lines 399-421 *)
Definition exchange_certificates
  (remote_user remote_password remote_address remote_port : pyval)
  : M pyval :=
  try_except
    (let exchange_cert_dict :=
       [ ("address", remote_address);
         ("port", remote_port);
         ("username", remote_user);
         ("password", remote_password);
         ("service", PStr "Replication_HTTP") ] in
     call_client (configuration_exchange_certificate exchange_cert_dict) ;;
     ret PNone)
    (fun e => fail_json (Exchange_certificate_failed e)).

(** lines 423-447 *)
Definition create_remote_system
  (remote_address description network_latency : pyval) : M (bool * pyval) :=
  try_except
    (let create_remote_sys_dict :=
       [ ("management_address", remote_address);
         ("description", description);
         ("data_network_latency", network_latency) ] in
     resp <- call_client
               (protection_create_remote_system create_remote_sys_dict) ;;
     id <- py (py_get resp "id") ;;
     remote_sys_details <- call_client
                             (protection_get_remote_system_details id) ;;
     ret (true, remote_sys_details))
    (fun e => fail_json (Create_failed e)).

(** lines 449-466 *)
Definition modify_remote_system
  (remote_sys_id : pyval) (modify_dict : dict) (is_async : bool)
  : M (bool * pyval) :=
  try_except
    (resp <- call_client
               (protection_modify_remote_system
                  remote_sys_id modify_dict is_async) ;;
     ret (true, resp))
    (fun e => fail_json (Modify_failed remote_sys_id e)).

(** lines 468-485 *)
Definition delete_remote_system (remote_sys_id : pyval) (is_async : bool)
  : M (bool * pyval) :=
  try_except
    (delete_resp <- call_client
                      (protection_delete_remote_system
                         remote_sys_id is_async) ;;
     ret (true, delete_resp))
    (fun e => fail_json (Delete_failed remote_sys_id e)).

(** lines 487-497 *)
Definition get_clusters : M pyval :=
  try_except
    (clusters <- call_client provisioning_get_cluster_list ;;
     ret clusters)
    (fun e => fail_json (Get_clusters_failed e)).

(** lines 522-530: the cluster precondition.  The name and id of the first
    cluster are read into attributes nothing else uses; reading them can
    raise. *)
Definition check_clusters : M unit :=
  clusters <- get_clusters ;;
  n <- py (py_len clusters) ;;
  if (0 <? n)%Z then
    cluster <- py (py_getitem0 clusters) ;;
    _ <- py (py_getitem cluster "name") ;;
    cluster <- py (py_getitem0 clusters) ;;
    _ <- py (py_getitem cluster "id") ;;
    ret tt
  else fail_json No_active_cluster.

(** lines 532-535 *)
Definition check_identifiers (l : locals) : M unit :=
  if truthy (remote_sys_name l) && negb (truthy (remote_sys_address l))
     && negb (truthy (remote_sys_id l))
  then fail_json Name_without_address_or_id
  else ret tt.

(** lines 540-552: the name cross-check and the backfill of identifiers. *)
Definition backfill_identifiers (l : locals) : M locals :=
  if truthy (remote_sys_details l) then
    l <- (if negb (truthy (remote_sys_id l)) then
            id <- py (py_getitem (remote_sys_details l) "id") ;;
            ret (set_remote_sys_id l id)
          else ret l) ;;
    (if truthy (remote_sys_name l) then
       name <- py (py_getitem (remote_sys_details l) "name") ;;
       if py_ne (remote_sys_name l) name
       then fail_json Remote_name_not_matching
       else ret tt
     else ret tt) ;;
    if negb (truthy (remote_sys_name l)) then
      name <- py (py_getitem (remote_sys_details l) "name") ;;
      let l := set_remote_sys_name l name in
      if negb (truthy (remote_sys_address l)) then
        address <- py (py_getitem (remote_sys_details l)
                         "management_address") ;;
        ret (set_remote_sys_address l address)
      else ret l
    else ret l
  else ret l.

(** lines 554-570 *)
Definition create_block (params : module_params) (l : locals) : M locals :=
  if negb (truthy (remote_sys_details l))
     && String.eqb (state params) "present"
  then
    (if truthy (remote_sys_id l) || truthy (remote_sys_name l)
     then fail_json Id_or_name_at_creation
     else ret tt) ;;
    exchange_certificates
      (of_ostr (remote_user params)) (of_ostr (remote_password params))
      (remote_sys_address l) (PInt (remote_port params)) ;;
    r <- create_remote_system
           (remote_sys_address l) (of_ostr (description params))
           (of_ostr (network_latency params)) ;;
    let l := set_remote_sys_details (set_changed l (fst r)) (snd r) in
    id <- py (py_getitem (remote_sys_details l) "id") ;;
    ret (set_remote_sys_id l id)
  else ret l.

(** lines 572-576 *)
Definition delete_block (params : module_params) (l : locals) : M locals :=
  if truthy (remote_sys_details l) && String.eqb (state params) "absent"
  then
    r <- delete_remote_system (remote_sys_id l) (is_async_of params) ;;
    let l := set_job_id (set_changed l (fst r)) (snd r) in
    ret (set_remote_sys_details l PNone)
  else ret l.

(** lines 578-598 *)
Definition modify_block (params : module_params) (l : locals) : M locals :=
  if truthy (remote_sys_details l) && String.eqb (state params) "present"
  then
    let modify_remote_sys_dict := modify_remote_sys_dict_of params in
    to_modify <- py (modify_remote_system_required
                       (remote_sys_details l) modify_remote_sys_dict) ;;
    if to_modify : bool then
      r <- modify_remote_system
             (remote_sys_id l) modify_remote_sys_dict (is_async_of params) ;;
      let l := set_changed l (fst r) in
      if is_async_of params then ret (set_job_id l (snd r))
      else
        details <- get_remote_system_details PNone PNone (remote_sys_id l) ;;
        ret (set_remote_sys_details l details)
    else ret l
  else ret l.

(** lines 600-605 *)
Definition report (l : locals) : M unit :=
  let result := [] in
  let result := dict_set "changed" (PBool (changed l)) result in
  let result := dict_set "job_details" (job_id l) result in
  let result :=
    if negb (truthy (job_id l))
    then dict_set "remote_system_details" (remote_sys_details l) result
    else result in
  exit_json result.

(** lines 499-539: from the parameters to the result of the lookup. *)
Definition lookup_phase (params : module_params) : M locals :=
  let l := collect_input params in
  check_clusters ;;
  check_identifiers l ;;
  details <- get_remote_system_details
               (remote_sys_name l) (remote_sys_address l) (remote_sys_id l) ;;
  ret (set_remote_sys_details l details).

(** lines 540-605: what the module does with what the lookup found. *)
Definition reconcile (params : module_params) (l : locals) : M unit :=
  l <- backfill_identifiers l ;;
  l <- create_block params l ;;
  l <- delete_block params l ;;
  l <- modify_block params l ;;
  report l.

(** lines 499-605 *)
Definition perform_module_operation (params : module_params) : M unit :=
  l <- lookup_phase params ;;
  reconcile params l.

End RemoteSystem.

(** ** Reading a run *)

(** The calls of a run for which [f] holds, in the order they were made. *)
Definition calls_of (f : call -> bool) (tr : list call) : list call :=
  filter f tr.

(** A call that hands back a job handle: a delete, or a modify sent with
    [is_async = True]. *)
Definition yields_job (c : call) : bool :=
  match c with
  | protection_delete_remote_system _ _ => true
  | protection_modify_remote_system _ _ is_async => is_async
  | _ => false
  end.

(** The record has the three attributes the module indexes with [[...]]. *)
Definition is_remote_system (d : dict) : bool :=
  dict_has "id" d && dict_has "name" d && dict_has "management_address" d.

(** Field [key] is given in [passed_args], not as [None], and the record
    holds another value for it. *)
Definition differing (remote_sys_details passed_args : dict) (key : string)
  : Prop :=
  exists cur arg,
    dict_get key remote_sys_details = Some cur /\
    dict_get key passed_args = Some arg /\
    arg <> PNone /\
    py_ne cur arg = true.

(** The name the play gave, when it gave one, is the name of the record. *)
Definition name_matches (params : module_params) (d : dict) : Prop :=
  truthy (of_ostr (remote_name params)) = true ->
  dict_get "name" d = Some (of_ostr (remote_name params)).

(** The call the lookup makes first, by address when one is given. *)
Definition lookup_call (params : module_params) : call :=
  if truthy (of_ostr (remote_address params))
  then protection_get_remote_system_by_mgmt_address
         (of_ostr (remote_address params))
  else protection_get_remote_system_details (of_ostr (remote_id params)).

(** ** Sample arrays and plays *)

Definition sample_clusters : pyval :=
  PList [PDict [("id", PStr "0"); ("name", PStr "cluster-1")]].

Definition sample_details : dict :=
  [ ("id", PStr "abc");
    ("name", PStr "peer");
    ("management_address", PStr "10.1.1.1");
    ("description", PStr "old");
    ("data_network_latency", PStr "Low") ].

Definition sample_job : pyval := PDict [("id", PStr "job-1")].

(** An array on which the remote system [sample_details] is registered. *)
Definition array_with_peer : array_client :=
  fun _ c =>
    match c with
    | provisioning_get_cluster_list => inr sample_clusters
    | protection_get_remote_system_by_mgmt_address _ =>
        inr (PList [PDict sample_details])
    | protection_get_remote_system_details _ => inr (PDict sample_details)
    | configuration_exchange_certificate _ => inr PNone
    | protection_create_remote_system _ => inr (PDict [("id", PStr "abc")])
    | protection_modify_remote_system _ _ _ => inr sample_job
    | protection_delete_remote_system _ _ => inr sample_job
    end.

(** An array without any remote system, until one is created; a lookup by
    id answers 404 before that. *)
Definition array_without_peer (HTTP_ERR : Z) : array_client :=
  fun tr c =>
    match c with
    | provisioning_get_cluster_list => inr sample_clusters
    | protection_get_remote_system_by_mgmt_address _ => inr (PList [])
    | protection_get_remote_system_details _ =>
        if existsb is_create tr then inr (PDict sample_details)
        else inl (PowerStoreException (PInt HTTP_ERR) (PStr "404"))
    | configuration_exchange_certificate _ => inr PNone
    | protection_create_remote_system _ => inr (PDict [("id", PStr "abc")])
    | protection_modify_remote_system _ _ _ => inr sample_job
    | protection_delete_remote_system _ _ => inr sample_job
    end.

(** The same array, whose peer refuses the certificate exchange. *)
Definition array_refusing_exchange (HTTP_ERR : Z) : array_client :=
  fun tr c =>
    match c with
    | configuration_exchange_certificate _ =>
        inl (OtherException "certificate exchange refused")
    | _ => array_without_peer HTTP_ERR tr c
    end.

(** An array whose lookups fail with a server error. *)
Definition array_failing_lookup : array_client :=
  fun tr c =>
    match c with
    | provisioning_get_cluster_list => inr sample_clusters
    | _ => inl (PowerStoreException (PInt 1) (PStr "500"))
    end.

(** An array that deletes synchronously and answers with an empty body. *)
Definition array_deleting_silently : array_client :=
  fun tr c =>
    match c with
    | protection_delete_remote_system _ _ => inr PNone
    | _ => array_with_peer tr c
    end.

Definition play (state : string) : module_params :=
  {| remote_user := None; remote_password := None; remote_port := 443;
     remote_name := None; remote_id := None; remote_address := None;
     new_remote_address := None; description := None;
     network_latency := None; wait_for_completion := Some false;
     state := state |}.

Definition with_address (a : string) (p : module_params) : module_params :=
  {| remote_user := remote_user p; remote_password := remote_password p;
     remote_port := remote_port p; remote_name := remote_name p;
     remote_id := remote_id p; remote_address := Some a;
     new_remote_address := new_remote_address p;
     description := description p; network_latency := network_latency p;
     wait_for_completion := wait_for_completion p; state := state p |}.

Definition with_id (i : string) (p : module_params) : module_params :=
  {| remote_user := remote_user p; remote_password := remote_password p;
     remote_port := remote_port p; remote_name := remote_name p;
     remote_id := Some i; remote_address := remote_address p;
     new_remote_address := new_remote_address p;
     description := description p; network_latency := network_latency p;
     wait_for_completion := wait_for_completion p; state := state p |}.

Definition with_name (n : string) (p : module_params) : module_params :=
  {| remote_user := remote_user p; remote_password := remote_password p;
     remote_port := remote_port p; remote_name := Some n;
     remote_id := remote_id p; remote_address := remote_address p;
     new_remote_address := new_remote_address p;
     description := description p; network_latency := network_latency p;
     wait_for_completion := wait_for_completion p; state := state p |}.

Definition with_description (s : string) (p : module_params)
  : module_params :=
  {| remote_user := remote_user p; remote_password := remote_password p;
     remote_port := remote_port p; remote_name := remote_name p;
     remote_id := remote_id p; remote_address := remote_address p;
     new_remote_address := new_remote_address p;
     description := Some s; network_latency := network_latency p;
     wait_for_completion := wait_for_completion p; state := state p |}.

Definition with_latency (s : string) (p : module_params) : module_params :=
  {| remote_user := remote_user p; remote_password := remote_password p;
     remote_port := remote_port p; remote_name := remote_name p;
     remote_id := remote_id p; remote_address := remote_address p;
     new_remote_address := new_remote_address p;
     description := description p; network_latency := Some s;
     wait_for_completion := wait_for_completion p; state := state p |}.

Definition with_credentials (u pw : string) (p : module_params)
  : module_params :=
  {| remote_user := Some u; remote_password := Some pw;
     remote_port := remote_port p; remote_name := remote_name p;
     remote_id := remote_id p; remote_address := remote_address p;
     new_remote_address := new_remote_address p;
     description := description p; network_latency := network_latency p;
     wait_for_completion := wait_for_completion p; state := state p |}.

Definition waiting (w : bool) (p : module_params) : module_params :=
  {| remote_user := remote_user p; remote_password := remote_password p;
     remote_port := remote_port p; remote_name := remote_name p;
     remote_id := remote_id p; remote_address := remote_address p;
     new_remote_address := new_remote_address p;
     description := description p; network_latency := network_latency p;
     wait_for_completion := Some w; state := state p |}.

(** ** More ways to read a run, and more sample arrays *)

(** The calls that change the array which a run with [state = absent] may
    make, in order: none, or one delete. *)
Definition absent_pattern (mutations : list call) : bool :=
  match mutations with
  | [] => true
  | [c] => is_delete c
  | _ => false
  end.

(** The calls that change the array which a run with [state = present] may
    make, in order: none; a modify; an exchange; an exchange and a create;
    an exchange, a create and a modify. *)
Definition present_pattern (mutations : list call) : bool :=
  match mutations with
  | [] => true
  | [c] => is_modify c || is_exchange c
  | [c1; c2] => is_exchange c1 && is_create c2
  | [c1; c2; c3] => is_exchange c1 && is_create c2 && is_modify c3
  | _ => false
  end.

(** The id the module works with once a record is found: the one the play
    gave, else the one of the record. *)
Definition resolved_id (params : module_params) (found_id : pyval) : pyval :=
  if truthy (of_ostr (remote_id params))
  then of_ostr (remote_id params) else found_id.

(** An array that has no cluster. *)
Definition array_without_cluster : array_client :=
  fun _ c =>
    match c with
    | provisioning_get_cluster_list => inr (PList [])
    | _ => array_with_peer [] c
    end.

(** An array that cannot be reached. *)
Definition array_unreachable : array_client :=
  fun _ _ => inl (OtherException "connection refused").

(** An array that accepts a create but never shows the new system. *)
Definition array_not_listing_created (HTTP_ERR : Z) : array_client :=
  fun tr c =>
    match c with
    | protection_get_remote_system_details _ =>
        inl (PowerStoreException (PInt HTTP_ERR) (PStr "404"))
    | _ => array_without_peer HTTP_ERR tr c
    end.

(** An array whose lookup by address answers a record without an id. *)
Definition array_with_partial_record : array_client :=
  fun tr c =>
    match c with
    | protection_get_remote_system_by_mgmt_address _ =>
        inr (PList [PDict [("name", PStr "peer")]])
    | _ => array_with_peer tr c
    end.

Definition with_new_address (a : string) (p : module_params)
  : module_params :=
  {| remote_user := remote_user p; remote_password := remote_password p;
     remote_port := remote_port p; remote_name := remote_name p;
     remote_id := remote_id p; remote_address := remote_address p;
     new_remote_address := Some a;
     description := description p; network_latency := network_latency p;
     wait_for_completion := wait_for_completion p; state := state p |}.

(** ** Sample runs *)

Example run_modify_description :
  perform_module_operation 1 array_with_peer
    (with_description "" (with_id "abc" (play "present"))) [] =
  (SystemExit
     (ExitJson [ ("changed", PBool true); ("job_details", sample_job) ]),
   [ provisioning_get_cluster_list;
     protection_get_remote_system_details (PStr "abc");
     protection_modify_remote_system (PStr "abc")
       [ ("management_address", PNone);
         ("description", PStr "");
         ("data_network_latency", PNone) ] true ]).
Proof. reflexivity. Qed.

Example run_create :
  perform_module_operation 1 (array_without_peer 1)
    (with_credentials "admin" "x" (with_address "10.1.1.1" (play "present")))
    [] =
  (SystemExit
     (ExitJson [ ("changed", PBool true); ("job_details", PNone);
                 ("remote_system_details", PDict sample_details) ]),
   [ provisioning_get_cluster_list;
     protection_get_remote_system_by_mgmt_address (PStr "10.1.1.1");
     configuration_exchange_certificate
       [ ("address", PStr "10.1.1.1"); ("port", PInt 443);
         ("username", PStr "admin"); ("password", PStr "x");
         ("service", PStr "Replication_HTTP") ];
     protection_create_remote_system
       [ ("management_address", PStr "10.1.1.1"); ("description", PNone);
         ("data_network_latency", PNone) ];
     protection_get_remote_system_details (PStr "abc") ]).
Proof. reflexivity. Qed.

Example run_delete :
  perform_module_operation 1 array_with_peer
    (with_id "abc" (play "absent")) [] =
  (SystemExit
     (ExitJson [ ("changed", PBool true); ("job_details", sample_job) ]),
   [ provisioning_get_cluster_list;
     protection_get_remote_system_details (PStr "abc");
     protection_delete_remote_system (PStr "abc") true ]).
Proof. reflexivity. Qed.

Example run_exchange_refused :
  perform_module_operation 1 (array_refusing_exchange 1)
    (with_credentials "admin" "x" (with_address "10.1.1.1" (play "present")))
    [] =
  (SystemExit
     (FailJson
        (Exchange_certificate_failed
           (OtherException "certificate exchange refused"))),
   [ provisioning_get_cluster_list;
     protection_get_remote_system_by_mgmt_address (PStr "10.1.1.1");
     configuration_exchange_certificate
       [ ("address", PStr "10.1.1.1"); ("port", PInt 443);
         ("username", PStr "admin"); ("password", PStr "x");
         ("service", PStr "Replication_HTTP") ] ]).
Proof. reflexivity. Qed.

Example run_lookup_fails :
  perform_module_operation 1 array_failing_lookup
    (with_id "abc" (play "present")) [] =
  (SystemExit
     (FailJson
        (Get_details_failed PNone (PStr "abc")
           (PowerStoreException (PInt 1) (PStr "500")))),
   [ provisioning_get_cluster_list;
     protection_get_remote_system_details (PStr "abc") ]).
Proof. reflexivity. Qed.

Example run_delete_answered_empty :
  perform_module_operation 1 array_deleting_silently
    (waiting true (with_id "abc" (play "absent"))) [] =
  (SystemExit
     (ExitJson [ ("changed", PBool true); ("job_details", PNone);
                 ("remote_system_details", PNone) ]),
   [ provisioning_get_cluster_list;
     protection_get_remote_system_details (PStr "abc");
     protection_delete_remote_system (PStr "abc") false ]).
Proof. reflexivity. Qed.

(** ** Facts about Python values and dicts *)

Lemma py_eq_str (v : pyval) (s : string) :
  py_eq v (PStr s) = true <-> v = PStr s.
Proof.
  destruct v; cbn; try (split; [discriminate | discriminate]).
  rewrite String.eqb_eq. split; [intros -> | intros [= ->]]; reflexivity.
Qed.

Lemma py_eq_str_l (s : string) (v : pyval) :
  py_eq (PStr s) v = true <-> v = PStr s.
Proof.
  destruct v; cbn; try (split; [discriminate | discriminate]).
  rewrite String.eqb_eq. split; [intros -> | intros [= ->]]; reflexivity.
Qed.

Lemma is_None_false (v : pyval) : is_None v = false <-> v <> PNone.
Proof. destruct v; cbn; split; congruence. Qed.

Lemma dict_get_keys {V : Type} (k : string) (d : list (string * V)) :
  In k (dict_keys d) <-> exists v, dict_get k d = Some v.
Proof.
  induction d as [|[k' v'] d IH]; cbn.
  - split; [tauto | intros [v H]; discriminate].
  - destruct (String.eqb_spec k k') as [->|Hne].
    + split; [eauto | auto].
    + rewrite IH. split; [intros [H|H]; [congruence | exact H] | auto].
Qed.

Lemma dict_has_true {V : Type} (k : string) (d : list (string * V)) :
  dict_has k d = true <-> exists v, dict_get k d = Some v.
Proof.
  unfold dict_has. destruct (dict_get k d).
  - split; eauto.
  - split; [discriminate | intros [v H]; discriminate].
Qed.

Lemma truthy_dict_get (k : string) (d : dict) (v : pyval) :
  dict_get k d = Some v -> truthy (PDict d) = true.
Proof. destruct d; cbn; [discriminate | reflexivity]. Qed.

Lemma is_remote_system_keys (d : dict) :
  is_remote_system d = true ->
  exists id name address,
    dict_get "id" d = Some id /\ dict_get "name" d = Some name /\
    dict_get "management_address" d = Some address.
Proof.
  unfold is_remote_system. rewrite !andb_true_iff, !dict_has_true.
  intros [[[i Hi] [n Hn]] [a Ha]]. eauto 7.
Qed.

(** The loop of [modify_remote_system_required] answers [True] exactly when
    one of the keys it visits is a differing field. *)
Lemma modification_required_loop_true (keys : list string) (d args : dict) :
  modification_required_loop keys d args = true <->
  exists key, In key keys /\ differing d args key.
Proof.
  unfold differing. induction keys as [|key keys IH]; cbn.
  - split; [discriminate | intros (k & [] & _)].
  - destruct (dict_get key args) as [arg|] eqn:Harg.
    + destruct (dict_get key d) as [cur|] eqn:Hcur.
      * destruct (negb (is_None arg) && py_ne cur arg) eqn:Hc.
        -- split; [intros _ | reflexivity].
           apply andb_true_iff in Hc as [Hn Hd].
           apply negb_true_iff, is_None_false in Hn.
           exists key. split; [now left | exists cur, arg; auto].
        -- rewrite IH. split.
           ++ intros (k & Hin & H). exists k. split; [now right | exact H].
           ++ intros (k & [<-|Hin] & cur' & arg' & H1 & H2 & H3 & H4).
              ** exfalso. rewrite Hcur in H1. rewrite Harg in H2.
                 injection H1 as <-. injection H2 as <-.
                 apply is_None_false in H3.
                 rewrite H3, H4 in Hc. discriminate.
              ** exists k. split; [exact Hin | exists cur', arg'; auto].
      * rewrite IH. split.
        -- intros (k & Hin & H). exists k. split; [now right | exact H].
        -- intros (k & [<-|Hin] & cur' & arg' & H1 & H).
           ++ congruence.
           ++ exists k. split; [exact Hin | exists cur', arg'; auto].
    + rewrite IH. split.
      * intros (k & Hin & H). exists k. split; [now right | exact H].
      * intros (k & [<-|Hin] & cur' & arg' & H1 & H2 & H).
        -- congruence.
        -- exists k. split; [exact Hin | exists cur', arg'; auto].
Qed.

Lemma modify_remote_system_required_dict (d args : dict) :
  exists b,
    modify_remote_system_required (PDict d) args = inr b /\
    (b = true <-> exists key, differing d args key).
Proof.
  eexists. split; [reflexivity |].
  rewrite modification_required_loop_true. split.
  - intros (k & _ & H). eauto.
  - intros (k & H). exists k. split; [| exact H].
    destruct H as (cur & _ & Hcur & _). apply dict_get_keys. eauto.
Qed.

(** C9: [modify_remote_system_required] visits only the keys of the fetched
    record.  On a record [d] it answers, and answers [True] if and only if
    some key of [d] is also a key of the passed arguments, with a value that
    is not [None] and differs from the value [d] holds.  So when every
    argument given (not [None]) is for a key that [d] lacks, the answer is
    [False]. *)
Theorem modify_remote_system_required_spec (d passed_args : dict) :
  (modify_remote_system_required (PDict d) passed_args = inr true <->
   exists key cur arg,
     In key (dict_keys d) /\
     dict_get key d = Some cur /\
     dict_get key passed_args = Some arg /\
     arg <> PNone /\
     py_ne cur arg = true) /\
  ((forall key arg,
       dict_get key passed_args = Some arg -> arg <> PNone ->
       dict_get key d = None) ->
   modify_remote_system_required (PDict d) passed_args = inr false).
Proof.
  destruct (modify_remote_system_required_dict d passed_args)
    as (b & Hb & Hiff).
  rewrite Hb. split.
  - split.
    + intros [= ->]. destruct (proj1 Hiff eq_refl) as (k & cur & arg & H).
      exists k, cur, arg. split; [| exact H].
      apply dict_get_keys. destruct H as (H & _). eauto.
    + intros (k & cur & arg & _ & H). f_equal. apply Hiff.
      exists k, cur, arg. exact H.
  - intros Habsent. destruct b; [| reflexivity].
    destruct (proj1 Hiff eq_refl) as (k & cur & arg & H1 & H2 & H3 & _).
    rewrite (Habsent k arg H2 H3) in H1. discriminate.
Qed.

(** ** Runs of the helper methods *)

Ltac munfold :=
  unfold bind, ret, raise, py, try_except, fail_json, exit_json, call_client.

Ltac msimpl := repeat (progress (munfold; cbn)).

Section Runs.

Variable HTTP_ERR : Z.
Variable client : array_client.

Lemma get_clusters_run (tr : list call) :
  get_clusters client tr =
  (match client tr provisioning_get_cluster_list with
   | inr clusters => Return clusters
   | inl e => SystemExit (FailJson (Get_clusters_failed e))
   end, tr ++ [provisioning_get_cluster_list]).
Proof. unfold get_clusters; munfold. destruct (client tr _); reflexivity. Qed.

Lemma exchange_certificates_run (u p a port : pyval) (tr : list call) :
  let c := configuration_exchange_certificate
             [ ("address", a); ("port", port); ("username", u);
               ("password", p); ("service", PStr "Replication_HTTP") ] in
  exchange_certificates client u p a port tr =
  (match client tr c with
   | inr _ => Return PNone
   | inl e => SystemExit (FailJson (Exchange_certificate_failed e))
   end, tr ++ [c]).
Proof.
  unfold exchange_certificates; munfold. cbn. destruct (client tr _); reflexivity.
Qed.

Lemma modify_remote_system_run (id : pyval) (d : dict) (a : bool)
  (tr : list call) :
  let c := protection_modify_remote_system id d a in
  modify_remote_system client id d a tr =
  (match client tr c with
   | inr resp => Return (true, resp)
   | inl e => SystemExit (FailJson (Modify_failed id e))
   end, tr ++ [c]).
Proof.
  unfold modify_remote_system; munfold. cbn. destruct (client tr _); reflexivity.
Qed.

Lemma delete_remote_system_run (id : pyval) (a : bool) (tr : list call) :
  let c := protection_delete_remote_system id a in
  delete_remote_system client id a tr =
  (match client tr c with
   | inr resp => Return (true, resp)
   | inl e => SystemExit (FailJson (Delete_failed id e))
   end, tr ++ [c]).
Proof.
  unfold delete_remote_system; munfold. cbn. destruct (client tr _); reflexivity.
Qed.

(** The lookup makes one call; it returns a value or stops the module with
    [fail_json], and a failure of the call ends as lines 391-397 say. *)
Lemma get_remote_system_details_run (name addr id : pyval) (tr : list call) :
  let c := if truthy addr
           then protection_get_remote_system_by_mgmt_address addr
           else protection_get_remote_system_details id in
  exists o,
    get_remote_system_details HTTP_ERR client name addr id tr
    = (o, tr ++ [c]) /\
    ((exists v, o = Return v) \/ (exists msg, o = SystemExit (FailJson msg)))
    /\
    (forall e, client tr c = inl e ->
       o = if is_not_found HTTP_ERR e then Return PNone
           else SystemExit (FailJson (Get_details_failed name id e))).
Proof.
  unfold get_remote_system_details; munfold.
  destruct (truthy addr); cbn.
  - destruct (client tr _) as [e|resp] eqn:Hc.
    + destruct (is_not_found HTTP_ERR e) eqn:Hnf; eexists;
        (split; [reflexivity | split; [eauto |]]);
        intros e' [= <-]; rewrite Hnf; reflexivity.
    + destruct (truthy resp).
      * destruct (py_getitem0 resp) as [e|v]; msimpl.
        -- destruct (is_not_found HTTP_ERR e) eqn:Hnf; eexists;
             (split; [reflexivity | split; [eauto | discriminate]]).
        -- eexists; (split; [reflexivity | split; [eauto | discriminate]]).
      * eexists; (split; [reflexivity | split; [eauto | discriminate]]).
  - destruct (client tr _) as [e|resp] eqn:Hc.
    + destruct (is_not_found HTTP_ERR e) eqn:Hnf; eexists;
        (split; [reflexivity | split; [eauto |]]);
        intros e' [= <-]; rewrite Hnf; reflexivity.
    + destruct (truthy resp);
        eexists; (split; [reflexivity | split; [eauto | discriminate]]).
Qed.


Lemma create_remote_system_run (addr desc lat : pyval) (tr : list call) :
  let c := protection_create_remote_system
             [ ("management_address", addr); ("description", desc);
               ("data_network_latency", lat) ] in
  exists o ext,
    create_remote_system client addr desc lat tr = (o, tr ++ c :: ext) /\
    forallb (fun c => negb (is_mutation c)) ext = true /\
    ((exists details, o = Return (true, details)) \/
     (exists msg, o = SystemExit (FailJson msg))).
Proof.
  unfold create_remote_system; msimpl.
  destruct (client tr _) as [e|resp]; msimpl.
  - exists (SystemExit (FailJson (Create_failed e))), []. eauto.
  - destruct (py_get resp "id") as [e|id]; msimpl.
    + exists (SystemExit (FailJson (Create_failed e))), []. eauto.
    + rewrite <- app_assoc. cbn.
      destruct (client _ (protection_get_remote_system_details id))
        as [e|details]; msimpl; eexists; eexists;
        (split; [reflexivity | split; [reflexivity | eauto]]).
Qed.

Lemma check_clusters_run (tr : list call) :
  exists o,
    check_clusters client tr = (o, tr ++ [provisioning_get_cluster_list]) /\
    (forall result, o <> SystemExit (ExitJson result)).
Proof.
  unfold check_clusters. unfold bind at 1. rewrite get_clusters_run.
  destruct (client tr _) as [e|clusters]; [eexists; split; [reflexivity | discriminate] |].
  msimpl. destruct (py_len clusters) as [e|n]; msimpl;
    [eexists; split; [reflexivity | discriminate] |].
  destruct (0 <? n)%Z; msimpl; [| eexists; split; [reflexivity | discriminate]].
  destruct (py_getitem0 clusters) as [e|c]; msimpl;
    [eexists; split; [reflexivity | discriminate] |].
  destruct (py_getitem c "name") as [e|x]; msimpl;
    [eexists; split; [reflexivity | discriminate] |].
  destruct (py_getitem c "id") as [e|y]; msimpl;
    eexists; (split; [reflexivity | discriminate]).
Qed.

(** ** Runs of [perform_module_operation] up to the lookup *)

(** What a completed lookup phase leaves behind: the locals are the
    parameters with the fetched record, and the only calls made are the
    cluster query and the lookup. *)
Lemma lookup_phase_inv (params : module_params) (l : locals)
  (tr tr' : list call) :
  lookup_phase HTTP_ERR client params tr = (Return l, tr') ->
  l = set_remote_sys_details (collect_input params) (remote_sys_details l) /\
  tr' = tr ++ [provisioning_get_cluster_list; lookup_call params] /\
  truthy (of_ostr (remote_name params))
    && negb (truthy (of_ostr (remote_address params)))
    && negb (truthy (of_ostr (remote_id params))) = false.
Proof.
  unfold lookup_phase. unfold bind at 1.
  destruct (check_clusters_run tr) as (o & -> & _).
  destruct o as [[]|e|x]; [| discriminate | discriminate].
  unfold bind at 1. unfold check_identifiers. cbn [collect_input remote_sys_name remote_sys_address remote_sys_id].
  destruct (truthy (of_ostr (remote_name params))
            && negb (truthy (of_ostr (remote_address params)))
            && negb (truthy (of_ostr (remote_id params)))) eqn:Hc;
    [discriminate |].
  unfold ret at 1. unfold bind.
  destruct (get_remote_system_details_run
              (of_ostr (remote_name params)) (of_ostr (remote_address params))
              (of_ostr (remote_id params))
              (tr ++ [provisioning_get_cluster_list])) as (o & -> & _ & _).
  destruct o as [v|e|x]; [| discriminate | discriminate].
  unfold ret. intros [= <- <-]. cbn.
  rewrite <- app_assoc. cbn. unfold lookup_call. auto.
Qed.

Lemma lookup_phase_trace (params : module_params) (o : outcome locals)
  (tr tr' : list call) :
  lookup_phase HTTP_ERR client params tr = (o, tr') ->
  (forall result, o <> SystemExit (ExitJson result)) /\
  exists ext, tr' = tr ++ ext /\
              forallb (fun c => negb (is_mutation c)) ext = true.
Proof.
  unfold lookup_phase. unfold bind at 1.
  destruct (check_clusters_run tr) as (o1 & -> & Hne).
  destruct o1 as [[]|e|x];
    [| intros [= <- <-]; split; [discriminate | eexists; split; eauto]
     | intros [= <- <-]; split; [intros r [= ->]; eapply Hne; eauto | eexists; split; eauto]].
  unfold bind at 1. unfold check_identifiers.
  destruct (_ && _ && _);
    [intros [= <- <-]; split; [discriminate | eexists; split; eauto] |].
  unfold ret at 1. unfold bind.
  destruct (get_remote_system_details_run
              (remote_sys_name (collect_input params))
              (remote_sys_address (collect_input params))
              (remote_sys_id (collect_input params))
              (tr ++ [provisioning_get_cluster_list])) as (o2 & -> & Ho & _).
  rewrite <- app_assoc.
  destruct Ho as [[v ->]|[msg ->]]; intros [= <- <-];
    (split; [discriminate | eexists; split; [reflexivity |]]);
    cbn; destruct (truthy _); reflexivity.
Qed.

End Runs.

(** ** Runs of the blocks of [perform_module_operation] *)

Section Blocks.

Variable HTTP_ERR : Z.
Variable client : array_client.

Lemma backfill_identifiers_skip (l : locals) (tr : list call) :
  truthy (remote_sys_details l) = false ->
  backfill_identifiers l tr = (Return l, tr).
Proof. unfold backfill_identifiers. intros ->. reflexivity. Qed.

(** The block makes no call and leaves the record, [changed] and [job_id]
    as they are. *)
Lemma backfill_identifiers_run (l : locals) (tr : list call) :
  exists o,
    backfill_identifiers l tr = (o, tr) /\
    (forall result, o <> SystemExit (ExitJson result)) /\
    (forall l', o = Return l' ->
       remote_sys_details l' = remote_sys_details l /\
       changed l' = changed l /\ job_id l' = job_id l).
Proof.
  unfold backfill_identifiers.
  destruct (truthy (remote_sys_details l));
    [| eexists; split; [reflexivity | split; [discriminate | intros ? [= <-]; auto]]].
  msimpl.
  destruct (truthy (remote_sys_id l)); msimpl.
  - destruct (truthy (remote_sys_name l)); msimpl.
    + destruct (py_getitem (remote_sys_details l) "name") as [e|n]; msimpl;
        [eexists; split; [reflexivity | split; discriminate] |].
      destruct (py_ne (remote_sys_name l) n); msimpl;
        eexists; (split; [reflexivity | split; [discriminate |]]);
        [discriminate | intros ? [= <-]; auto].
    + destruct (py_getitem (remote_sys_details l) "name") as [e|n]; msimpl;
        [eexists; split; [reflexivity | split; discriminate] |].
      destruct (truthy (remote_sys_address l)); msimpl;
        [eexists; split; [reflexivity | split; [discriminate | intros ? [= <-]; auto]] |].
      destruct (py_getitem (remote_sys_details l) "management_address")
        as [e|a]; msimpl;
        eexists; (split; [reflexivity | split; [discriminate |]]);
        [discriminate | intros ? [= <-]; auto].
  - destruct (py_getitem (remote_sys_details l) "id") as [e|i]; msimpl;
      [eexists; split; [reflexivity | split; discriminate] |].
    destruct (truthy (remote_sys_name l)); msimpl.
    + destruct (py_getitem (remote_sys_details l) "name") as [e|n]; msimpl;
        [eexists; split; [reflexivity | split; discriminate] |].
      destruct (py_ne (remote_sys_name l) n); msimpl;
        eexists; (split; [reflexivity | split; [discriminate |]]);
        [discriminate | intros ? [= <-]; auto].
    + destruct (py_getitem (remote_sys_details l) "name") as [e|n]; msimpl;
        [eexists; split; [reflexivity | split; discriminate] |].
      destruct (truthy (remote_sys_address l)); msimpl;
        [eexists; split; [reflexivity | split; [discriminate | intros ? [= <-]; auto]] |].
      destruct (py_getitem (remote_sys_details l) "management_address")
        as [e|a]; msimpl;
        eexists; (split; [reflexivity | split; [discriminate |]]);
        [discriminate | intros ? [= <-]; auto].
Qed.

(** The backfill on a well-formed record whose name agrees with the play. *)
Lemma backfill_identifiers_found (l : locals) (d : dict) (tr : list call)
  (id name address : pyval) :
  remote_sys_details l = PDict d ->
  dict_get "id" d = Some id ->
  dict_get "name" d = Some name ->
  dict_get "management_address" d = Some address ->
  (truthy (remote_sys_name l) = true -> py_ne (remote_sys_name l) name = false) ->
  backfill_identifiers l tr =
  (Return
     {| remote_sys_name :=
          if truthy (remote_sys_name l) then remote_sys_name l else name;
        remote_sys_id :=
          if truthy (remote_sys_id l) then remote_sys_id l else id;
        remote_sys_address :=
          if negb (truthy (remote_sys_name l))
             && negb (truthy (remote_sys_address l))
          then address else remote_sys_address l;
        remote_sys_details := remote_sys_details l;
        changed := changed l;
        job_id := job_id l |}, tr).
Proof.
  intros Hd Hid Hname Haddr Hmatch. unfold backfill_identifiers.
  rewrite Hd. rewrite (truthy_dict_get _ _ _ Hid). rewrite <- Hd.
  destruct l as [ln li la ld lc lj]. cbn in *. subst ld.
  destruct (truthy ln) eqn:Hn;
    [specialize (Hmatch eq_refl) | clear Hmatch];
    destruct (truthy li) eqn:Hi, (truthy la) eqn:Ha;
    repeat (progress
              (msimpl; rewrite ?Hid, ?Hname, ?Haddr, ?Hmatch, ?Hn, ?Hi, ?Ha));
    reflexivity.
Qed.


Lemma create_block_skip (params : module_params) (l : locals)
  (tr : list call) :
  negb (truthy (remote_sys_details l))
    && String.eqb (state params) "present" = false ->
  create_block client params l tr = (Return l, tr).
Proof. unfold create_block. intros ->. reflexivity. Qed.

Lemma create_block_rejects (params : module_params) (l : locals)
  (tr : list call) :
  negb (truthy (remote_sys_details l))
    && String.eqb (state params) "present" = true ->
  truthy (remote_sys_id l) || truthy (remote_sys_name l) = true ->
  create_block client params l tr
  = (SystemExit (FailJson Id_or_name_at_creation), tr).
Proof. unfold create_block. intros -> H. msimpl. rewrite H. reflexivity. Qed.

(** The create path: the exchange is the first call of the block; a create
    call follows it if and only if the exchange succeeded, and nothing else
    in the block changes the array. *)
Lemma create_block_run (params : module_params) (l : locals)
  (tr : list call) :
  negb (truthy (remote_sys_details l))
    && String.eqb (state params) "present" = true ->
  truthy (remote_sys_id l) || truthy (remote_sys_name l) = false ->
  let c := configuration_exchange_certificate
             [ ("address", remote_sys_address l);
               ("port", PInt (remote_port params));
               ("username", of_ostr (remote_user params));
               ("password", of_ostr (remote_password params));
               ("service", PStr "Replication_HTTP") ] in
  let c' := protection_create_remote_system
              [ ("management_address", remote_sys_address l);
                ("description", of_ostr (description params));
                ("data_network_latency", of_ostr (network_latency params)) ] in
  exists o ext,
    create_block client params l tr = (o, tr ++ c :: ext) /\
    (forall result, o <> SystemExit (ExitJson result)) /\
    (forall e, client tr c = inl e ->
       ext = [] /\ o = SystemExit (FailJson (Exchange_certificate_failed e)))
    /\
    (forall v, client tr c = inr v ->
       exists ext', ext = c' :: ext' /\
                    forallb (fun c => negb (is_mutation c)) ext' = true) /\
    (forall l', o = Return l' ->
       job_id l' = job_id l /\ truthy (remote_sys_details l') = true).
Proof.
  intros Hc Hid c c'. unfold create_block. rewrite Hc, Hid.
  unfold bind at 1. unfold ret at 1. unfold bind at 1.
  rewrite exchange_certificates_run. fold c.
  destruct (client tr c) as [e|v] eqn:Hx.
  - exists (SystemExit (FailJson (Exchange_certificate_failed e))), [].
    split; [reflexivity |]. split; [discriminate |].
    split; [intros ? [= <-]; auto |]. split; discriminate.
  - unfold bind at 1.
    destruct (create_remote_system_run client (remote_sys_address l)
                (of_ostr (description params))
                (of_ostr (network_latency params)) (tr ++ [c]))
      as (o & ext & -> & Hext & Ho).
    fold c'. rewrite <- app_assoc. cbn [app].
    destruct Ho as [[details ->]|[msg ->]].
    + cbn [fst snd]. msimpl.
      destruct (py_getitem details "id") as [e|i] eqn:Hi; msimpl.
      * exists (Raise e), (c' :: ext).
        split; [reflexivity |]. split; [discriminate |].
        split; [discriminate |]. split; [| discriminate].
        intros _ _. eauto.
      * eexists; exists (c' :: ext).
        split; [reflexivity |]. split; [discriminate |].
        split; [discriminate |]. split; [intros _ _; eauto |].
        intros l' [= <-]. cbn. split; [reflexivity |].
        destruct details; try discriminate. cbn in Hi.
        destruct (dict_get "id" d) eqn:Hd; [| discriminate].
        eapply truthy_dict_get; eauto.
    + exists (SystemExit (FailJson msg)), (c' :: ext).
      split; [reflexivity |]. split; [discriminate |].
      split; [discriminate |]. split; [| discriminate].
      intros _ _. eauto.
Qed.

Lemma delete_block_skip (params : module_params) (l : locals)
  (tr : list call) :
  truthy (remote_sys_details l) && String.eqb (state params) "absent" = false ->
  delete_block client params l tr = (Return l, tr).
Proof. unfold delete_block. intros ->. reflexivity. Qed.

Lemma delete_block_run (params : module_params) (l : locals)
  (tr : list call) :
  truthy (remote_sys_details l) && String.eqb (state params) "absent" = true ->
  let c := protection_delete_remote_system
             (remote_sys_id l) (is_async_of params) in
  delete_block client params l tr =
  (match client tr c with
   | inr delete_resp =>
       Return (set_remote_sys_details
                 (set_job_id (set_changed l true) delete_resp) PNone)
   | inl e => SystemExit (FailJson (Delete_failed (remote_sys_id l) e))
   end, tr ++ [c]).
Proof.
  intros Hc c. unfold delete_block. rewrite Hc. unfold bind.
  rewrite delete_remote_system_run. fold c.
  destruct (client tr c); reflexivity.
Qed.

Lemma modify_block_skip (params : module_params) (l : locals)
  (tr : list call) :
  truthy (remote_sys_details l) && String.eqb (state params) "present" = false ->
  modify_block HTTP_ERR client params l tr = (Return l, tr).
Proof. unfold modify_block. intros ->. reflexivity. Qed.

Lemma modify_block_not_required (params : module_params) (l : locals)
  (tr : list call) :
  truthy (remote_sys_details l) && String.eqb (state params) "present" = true ->
  modify_remote_system_required
    (remote_sys_details l) (modify_remote_sys_dict_of params) = inr false ->
  modify_block HTTP_ERR client params l tr = (Return l, tr).
Proof. unfold modify_block. intros -> H. msimpl. rewrite H. reflexivity. Qed.

(** The modify path: one modify call carrying the whole candidate dict;
    then, when the module waits, one more lookup by id. *)
Lemma modify_block_required (params : module_params) (l : locals)
  (tr : list call) :
  truthy (remote_sys_details l) && String.eqb (state params) "present" = true ->
  modify_remote_system_required
    (remote_sys_details l) (modify_remote_sys_dict_of params) = inr true ->
  let c := protection_modify_remote_system
             (remote_sys_id l) (modify_remote_sys_dict_of params)
             (is_async_of params) in
  exists o ext,
    modify_block HTTP_ERR client params l tr = (o, tr ++ c :: ext) /\
    forallb (fun c => negb (is_mutation c)) ext = true /\
    (forall result, o <> SystemExit (ExitJson result)) /\
    (forall e, o <> Raise e) /\
    (forall l', o = Return l' ->
       changed l' = true /\
       if is_async_of params
       then ext = [] /\ client tr c = inr (job_id l') /\
            remote_sys_details l' = remote_sys_details l
       else job_id l' = job_id l).
Proof.
  intros Hc Hr c. unfold modify_block. rewrite Hc.
  unfold bind at 1. rewrite Hr. unfold py, ret at 1. cbv iota beta.
  unfold bind at 1. rewrite modify_remote_system_run. fold c.
  destruct (client tr c) as [e|resp] eqn:Hx.
  - exists (SystemExit (FailJson (Modify_failed (remote_sys_id l) e))), [].
    split; [reflexivity |]. split; [reflexivity |].
    split; [discriminate |]. split; discriminate.
  - cbn [fst snd]. destruct (is_async_of params) eqn:Ha.
    + eexists; exists []. split; [reflexivity |]. split; [reflexivity |].
      split; [discriminate |]. split; [discriminate |].
      intros l' [= <-]. cbn. auto.
    + unfold bind.
      destruct (get_remote_system_details_run HTTP_ERR client PNone PNone
                  (remote_sys_id (set_changed l true)) (tr ++ [c]))
        as (o & -> & Ho & _).
      rewrite <- app_assoc. cbn [app truthy].
      destruct Ho as [[v ->]|[msg ->]].
      * eexists; eexists. split; [reflexivity |]. split; [reflexivity |].
        split; [discriminate |]. split; [discriminate |].
        intros l' [= <-]. cbn. auto.
      * eexists; eexists. split; [reflexivity |]. split; [reflexivity |].
        split; [discriminate |]. split; discriminate.
Qed.

Lemma report_run (l : locals) (tr : list call) :
  report l tr =
  (SystemExit
     (ExitJson
        (if truthy (job_id l)
         then [ ("changed", PBool (changed l)); ("job_details", job_id l) ]
         else [ ("changed", PBool (changed l)); ("job_details", job_id l);
                ("remote_system_details", remote_sys_details l) ])), tr).
Proof. unfold report, exit_json. cbn. destruct (truthy (job_id l)); reflexivity. Qed.

End Blocks.

(** ** The reconciliation *)

Section Reconciliation.

Variable HTTP_ERR : Z.
Variable client : array_client.

Lemma perform_after_lookup (params : module_params) (l : locals)
  (tr tr0 : list call) :
  lookup_phase HTTP_ERR client params tr = (Return l, tr0) ->
  perform_module_operation HTTP_ERR client params tr
  = reconcile HTTP_ERR client params l tr0.
Proof.
  intros H. unfold perform_module_operation, bind. rewrite H. reflexivity.
Qed.

Lemma lookup_phase_no_mutation (params : module_params) (l : locals)
  (tr0 : list call) :
  lookup_phase HTTP_ERR client params [] = (Return l, tr0) ->
  calls_of is_mutation tr0 = [].
Proof.
  intros H. apply lookup_phase_inv in H as (_ & -> & _).
  unfold lookup_call. cbn. destruct (truthy _); reflexivity.
Qed.

(** C4: with [state = absent] and a lookup that finds no remote system, the
    module exits with [changed = False] and has made no call that changes
    the array: no exchange, create, modify or delete. *)
Theorem absent_and_not_found_is_noop (params : module_params) (l : locals)
  (tr0 : list call) :
  state params = "absent" ->
  lookup_phase HTTP_ERR client params [] = (Return l, tr0) ->
  truthy (remote_sys_details l) = false ->
  perform_module_operation HTTP_ERR client params [] =
  (SystemExit
     (ExitJson [ ("changed", PBool false); ("job_details", PNone);
                 ("remote_system_details", remote_sys_details l) ]), tr0) /\
  calls_of is_mutation tr0 = [].
Proof.
  intros Hs Hl Hd. split; [| eapply lookup_phase_no_mutation; eauto].
  rewrite (perform_after_lookup _ _ _ _ Hl).
  apply lookup_phase_inv in Hl as (Hl & _ & _).
  unfold reconcile. unfold bind at 1.
  rewrite (backfill_identifiers_skip l tr0 Hd).
  unfold bind at 1. rewrite create_block_skip by (rewrite Hs, Hd; reflexivity).
  unfold bind at 1. rewrite delete_block_skip by (rewrite Hd; reflexivity).
  unfold bind at 1. rewrite modify_block_skip by (rewrite Hd; reflexivity).
  rewrite report_run.
  assert (Hc : changed l = false) by (rewrite Hl; reflexivity).
  assert (Hj : job_id l = PNone) by (rewrite Hl; reflexivity).
  rewrite Hc, Hj. reflexivity.
Qed.

(** C5: with [state = present], a lookup that finds no remote system, and a
    [remote_id] or [remote_name] given, the module fails with the message
    that they cannot be passed during creation, before any exchange or
    create call (no call that changes the array is made). *)
Theorem creation_rejects_id_or_name (params : module_params) (l : locals)
  (tr0 : list call) :
  state params = "present" ->
  lookup_phase HTTP_ERR client params [] = (Return l, tr0) ->
  truthy (remote_sys_details l) = false ->
  truthy (of_ostr (remote_id params))
    || truthy (of_ostr (remote_name params)) = true ->
  perform_module_operation HTTP_ERR client params [] =
  (SystemExit (FailJson Id_or_name_at_creation), tr0) /\
  calls_of is_mutation tr0 = [].
Proof.
  intros Hs Hl Hd Hid. split; [| eapply lookup_phase_no_mutation; eauto].
  rewrite (perform_after_lookup _ _ _ _ Hl).
  apply lookup_phase_inv in Hl as (Hl & _ & _).
  unfold reconcile. unfold bind at 1.
  rewrite (backfill_identifiers_skip l tr0 Hd).
  unfold bind at 1. rewrite create_block_rejects; [reflexivity | |].
  - rewrite Hs, Hd. reflexivity.
  - rewrite Hl. cbn. exact Hid.
Qed.

(** C7: when the lookup found a remote system and the play gave a
    [remote_name] that is not the name of the found system, the module
    fails with the message that the name does not match, and has made no
    call that changes the array.  (The id is at hand: given by the play or
    present in the record.) *)
Theorem name_mismatch_is_fatal (params : module_params) (l : locals)
  (tr0 : list call) (d : dict) (name : string) (found_name : pyval) :
  lookup_phase HTTP_ERR client params [] = (Return l, tr0) ->
  remote_sys_details l = PDict d ->
  remote_name params = Some name ->
  name <> "" ->
  dict_get "name" d = Some found_name ->
  found_name <> PStr name ->
  truthy (of_ostr (remote_id params)) = true \/ dict_has "id" d = true ->
  perform_module_operation HTTP_ERR client params [] =
  (SystemExit (FailJson Remote_name_not_matching), tr0) /\
  calls_of is_mutation tr0 = [].
Proof.
  intros Hl Hd Hn Hne Hf Hdiff Hid.
  split; [| eapply lookup_phase_no_mutation; eauto].
  rewrite (perform_after_lookup _ _ _ _ Hl).
  apply lookup_phase_inv in Hl as (Hl & _ & _).
  assert (Hne' : py_ne (PStr name) found_name = true).
  { unfold py_ne. destruct (py_eq (PStr name) found_name) eqn:E; [| reflexivity].
    apply py_eq_str_l in E. contradiction. }
  assert (Ht : truthy (PStr name) = true).
  { cbn. destruct (String.eqb_spec name ""); [contradiction | reflexivity]. }
  rewrite Hd in Hl. subst l. clear Hd.
  unfold reconcile. unfold bind at 1. unfold backfill_identifiers.
  cbn [set_remote_sys_details collect_input remote_sys_details
       remote_sys_id remote_sys_name remote_sys_address].
  rewrite (truthy_dict_get _ _ _ Hf).
  assert (Ht' : negb (String.eqb name "") = true) by exact Ht.
  destruct (truthy (of_ostr (remote_id params))) eqn:Hi.
  - repeat (progress (msimpl; rewrite ?Hn, ?Hf, ?Hne', ?Ht, ?Ht')).
    reflexivity.
  - destruct Hid as [Hid|Hid]; [discriminate |].
    apply dict_has_true in Hid as [i Hi'].
    repeat (progress (msimpl; rewrite ?Hi', ?Hn, ?Hf, ?Hne', ?Ht, ?Ht')).
    reflexivity.
Qed.


(** C8: on a found record, the identifiers the play left out are filled in
    from it.  A [remote_id] left out becomes the found id; a [remote_name]
    left out becomes the found name; the found management address becomes
    [remote_address] exactly when both [remote_name] and [remote_address]
    were left out.  What the play gave is kept. *)
Theorem identifiers_backfilled_from_found_record (params : module_params)
  (d : dict) (tr : list call) (id name address : pyval) :
  dict_get "id" d = Some id ->
  dict_get "name" d = Some name ->
  dict_get "management_address" d = Some address ->
  (truthy (of_ostr (remote_name params)) = true ->
   py_ne (of_ostr (remote_name params)) name = false) ->
  exists l',
    backfill_identifiers
      (set_remote_sys_details (collect_input params) (PDict d)) tr
    = (Return l', tr) /\
    remote_sys_id l' =
      (if truthy (of_ostr (remote_id params))
       then of_ostr (remote_id params) else id) /\
    remote_sys_name l' =
      (if truthy (of_ostr (remote_name params))
       then of_ostr (remote_name params) else name) /\
    remote_sys_address l' =
      (if negb (truthy (of_ostr (remote_name params)))
          && negb (truthy (of_ostr (remote_address params)))
       then address else of_ostr (remote_address params)) /\
    remote_sys_details l' = PDict d.
Proof.
  intros Hid Hname Haddr Hmatch.
  eexists. split.
  - apply (backfill_identifiers_found _ d tr id name address);
      [reflexivity | assumption | assumption | assumption | exact Hmatch].
  - cbn. auto.
Qed.

Lemma name_matches_py_ne (params : module_params) (d : dict) (name : pyval) :
  name_matches params d ->
  dict_get "name" d = Some name ->
  truthy (of_ostr (remote_name params)) = true ->
  py_ne (of_ostr (remote_name params)) name = false.
Proof.
  intros Hm Hn Ht. specialize (Hm Ht). rewrite Hn in Hm. injection Hm as ->.
  destruct (remote_name params) as [s|]; [| discriminate].
  unfold py_ne. cbn. rewrite String.eqb_refl. reflexivity.
Qed.

(** A run that found a well-formed record, up to the modify block. *)
Lemma reconcile_found (params : module_params) (l : locals) (d : dict)
  (tr0 : list call) :
  state params = "present" ->
  l = set_remote_sys_details (collect_input params) (PDict d) ->
  is_remote_system d = true ->
  name_matches params d ->
  exists l1,
    reconcile HTTP_ERR client params l tr0 =
    (l <- modify_block HTTP_ERR client params l1 ;; report l) tr0 /\
    remote_sys_details l1 = PDict d /\
    changed l1 = false /\ job_id l1 = PNone /\
    truthy (remote_sys_details l1)
      && String.eqb (state params) "present" = true /\
    (forall id, dict_get "id" d = Some id ->
       remote_sys_id l1 =
         if truthy (of_ostr (remote_id params))
         then of_ostr (remote_id params) else id).
Proof.
  intros Hs -> Hrs Hm.
  destruct (is_remote_system_keys d Hrs) as (id & name & address & Hi & Hn & Ha).
  pose proof (truthy_dict_get _ _ _ Hi) as Ht.
  eexists. split; [| split; [| split; [| split; [| split]]]].
  - unfold reconcile. unfold bind at 1.
    rewrite (backfill_identifiers_found _ d tr0 id name address);
      [| reflexivity | assumption | assumption | assumption
       | apply (name_matches_py_ne params d); assumption].
    unfold bind at 1. rewrite create_block_skip
      by (cbn [remote_sys_details set_remote_sys_details]; rewrite Ht;
          reflexivity).
    unfold bind at 1.
    rewrite delete_block_skip by (rewrite Hs; apply andb_false_r).
    reflexivity.
  - reflexivity.
  - reflexivity.
  - reflexivity.
  - cbn [remote_sys_details set_remote_sys_details].
    rewrite Ht, Hs. reflexivity.
  - intros id' Hi'. rewrite Hi in Hi'. injection Hi' as <-. reflexivity.
Qed.

(** C3, as the module does it: with [state = present], a found remote
    system (a record with [id], [name] and [management_address]) whose name
    is the [remote_name] of the play when the play gives one, and every
    field of the candidate dict either [None] or equal to what the record
    holds, the module changes nothing: it exits with [changed = False] and
    the fetched record as it was, and has made no modify call (no call that
    changes the array at all).  Without the condition on the name the run
    ends at the name cross-check of lines 543-547 instead. *)
Theorem present_without_difference_is_noop (params : module_params)
  (l : locals) (tr0 : list call) (d : dict) :
  state params = "present" ->
  lookup_phase HTTP_ERR client params [] = (Return l, tr0) ->
  remote_sys_details l = PDict d ->
  is_remote_system d = true ->
  name_matches params d ->
  (forall key arg,
     dict_get key (modify_remote_sys_dict_of params) = Some arg ->
     arg = PNone \/
     exists cur, dict_get key d = Some cur /\ py_eq cur arg = true) ->
  perform_module_operation HTTP_ERR client params [] =
  (SystemExit
     (ExitJson [ ("changed", PBool false); ("job_details", PNone);
                 ("remote_system_details", PDict d) ]), tr0) /\
  calls_of is_modify tr0 = [] /\
  calls_of is_mutation tr0 = [].
Proof.
  intros Hs Hl Hd Hrs Hm Hsame.
  pose proof (lookup_phase_no_mutation _ _ _ Hl) as Hnm.
  split; [| split; [| exact Hnm]].
  - rewrite (perform_after_lookup _ _ _ _ Hl).
    apply lookup_phase_inv in Hl as (Hl & _ & _). rewrite Hd in Hl.
    destruct (reconcile_found params l d tr0 Hs Hl Hrs Hm)
      as (l1 & -> & Hd1 & Hc1 & Hj1 & Hcond & _).
    unfold bind. rewrite modify_block_not_required; [| exact Hcond |].
    + rewrite report_run, Hc1, Hj1, Hd1. reflexivity.
    + rewrite Hd1.
      destruct (modify_remote_system_required_dict
                  d (modify_remote_sys_dict_of params)) as (b & -> & Hb).
      destruct b; [| reflexivity]. exfalso.
      destruct (proj1 Hb eq_refl) as (key & cur & arg & H1 & H2 & H3 & H4).
      destruct (Hsame key arg H2) as [->|(cur' & H5 & H6)]; [congruence |].
      rewrite H1 in H5. injection H5 as <-.
      unfold py_ne in H4. rewrite H6 in H4. discriminate.
  - apply lookup_phase_inv in Hl as (_ & -> & _).
    unfold lookup_call. cbn. destruct (truthy _); reflexivity.
Qed.

End Reconciliation.

(** ** Calls that change the array *)

Lemma calls_of_app (f : call -> bool) (tr tr' : list call) :
  calls_of f (tr ++ tr') = calls_of f tr ++ calls_of f tr'.
Proof. apply filter_app. Qed.

Lemma calls_of_none (f : call -> bool) (tr : list call) :
  forallb (fun c => negb (f c)) tr = true -> calls_of f tr = [].
Proof.
  induction tr as [|c tr IH]; cbn; [reflexivity |].
  rewrite andb_true_iff. intros [Hc Htr].
  apply negb_true_iff in Hc. rewrite Hc. auto.
Qed.

Lemma calls_of_sub (f g : call -> bool) (tr : list call) :
  (forall c, f c = true -> g c = true) ->
  calls_of g tr = [] -> calls_of f tr = [].
Proof.
  intros Hfg. induction tr as [|c tr IH]; cbn; [reflexivity |].
  destruct (g c) eqn:Hg; [discriminate |].
  destruct (f c) eqn:Hf; [rewrite (Hfg c Hf) in Hg; discriminate | exact IH].
Qed.

Lemma is_modify_mutation (c : call) : is_modify c = true -> is_mutation c = true.
Proof. destruct c; cbn; congruence. Qed.

Lemma is_exchange_mutation (c : call) :
  is_exchange c = true -> is_mutation c = true.
Proof. destruct c; cbn; congruence. Qed.

Lemma is_create_mutation (c : call) : is_create c = true -> is_mutation c = true.
Proof. destruct c; cbn; congruence. Qed.

Lemma yields_job_mutation (c : call) :
  yields_job c = true -> is_mutation c = true.
Proof. destruct c; cbn; congruence. Qed.

Section ModifyAndCreate.

Variable HTTP_ERR : Z.
Variable client : array_client.

(** Whatever the modify block does: nothing, or one modify call followed
    by calls that change nothing. *)
Lemma modify_block_cases (params : module_params) (l : locals)
  (tr : list call) :
  let c := protection_modify_remote_system
             (remote_sys_id l) (modify_remote_sys_dict_of params)
             (is_async_of params) in
  exists o ext,
    modify_block HTTP_ERR client params l tr = (o, tr ++ ext) /\
    (forall result, o <> SystemExit (ExitJson result)) /\
    ((ext = [] /\ forall l', o = Return l' -> l' = l) \/
     (exists ext',
        ext = c :: ext' /\
        forallb (fun c => negb (is_mutation c)) ext' = true /\
        forall l', o = Return l' ->
          changed l' = true /\
          if is_async_of params
          then ext' = [] /\ client tr c = inr (job_id l') /\
               remote_sys_details l' = remote_sys_details l
          else job_id l' = job_id l)).
Proof.
  intros c.
  destruct (truthy (remote_sys_details l)
            && String.eqb (state params) "present") eqn:Hc.
  - destruct (modify_remote_system_required
                (remote_sys_details l) (modify_remote_sys_dict_of params))
      as [e|[|]] eqn:Hr.
    + exists (Raise e), []. rewrite app_nil_r. split.
      * unfold modify_block. rewrite Hc. unfold bind. rewrite Hr. reflexivity.
      * split; [discriminate |]. left. split; [reflexivity | discriminate].
    + destruct (modify_block_required HTTP_ERR client params l tr Hc Hr)
        as (o & ext & Hrun & Hext & Hne & _ & Hret).
      exists o, (c :: ext). split; [exact Hrun |]. split; [exact Hne |].
      right. exists ext. split; [reflexivity |]. split; [exact Hext |].
      intros l' Hl'. specialize (Hret l' Hl') as [Hch Hrest].
      split; [exact Hch |]. exact Hrest.
    + exists (Return l), []. rewrite app_nil_r.
      split; [apply modify_block_not_required; assumption |].
      split; [discriminate |]. left. split; [reflexivity |].
      intros l' [= <-]. reflexivity.
  - exists (Return l), []. rewrite app_nil_r.
    split; [apply modify_block_skip; assumption |].
    split; [discriminate |]. left. split; [reflexivity |].
    intros l' [= <-]. reflexivity.
Qed.

(** C1, as the module does it: with [state = present], a found remote
    system and at least one field of the candidate dict that is not [None]
    and differs from the record, the module makes exactly one modify call,
    and no other call that changes the array.  The call carries the whole
    candidate dict, always with the three keys [management_address],
    [description] and [data_network_latency]: each differing field with the
    value the play gave, and next to them the fields the play left out, as
    [None], and the fields it gave with the value the record already has.
    A run that exits normally reports [changed = True]. *)
Theorem present_with_difference_modifies_once (params : module_params)
  (l : locals) (tr0 : list call) (d : dict) (id : pyval) (key : string) :
  state params = "present" ->
  lookup_phase HTTP_ERR client params [] = (Return l, tr0) ->
  remote_sys_details l = PDict d ->
  is_remote_system d = true ->
  name_matches params d ->
  dict_get "id" d = Some id ->
  differing d (modify_remote_sys_dict_of params) key ->
  let patch := modify_remote_sys_dict_of params in
  let c := protection_modify_remote_system
             (if truthy (of_ostr (remote_id params))
              then of_ostr (remote_id params) else id)
             patch (is_async_of params) in
  exists out ext,
    perform_module_operation HTTP_ERR client params []
    = (out, tr0 ++ c :: ext) /\
    calls_of is_modify (tr0 ++ c :: ext) = [c] /\
    calls_of is_mutation (tr0 ++ c :: ext) = [c] /\
    dict_keys patch
    = ["management_address"; "description"; "data_network_latency"] /\
    (forall key',
       differing d patch key' ->
       exists arg, dict_get key' patch = Some arg /\ arg <> PNone) /\
    (forall result,
       out = SystemExit (ExitJson result) ->
       dict_get "changed" result = Some (PBool true)).
Proof.
  intros Hs Hl Hd Hrs Hm Hid Hdiff patch c.
  pose proof (lookup_phase_no_mutation _ _ _ _ _ Hl) as Hnm.
  rewrite (perform_after_lookup _ _ _ _ _ _ Hl).
  apply lookup_phase_inv in Hl as (Hl & _ & _). rewrite Hd in Hl.
  destruct (reconcile_found HTTP_ERR client params l d tr0 Hs Hl Hrs Hm)
    as (l1 & -> & Hd1 & Hc1 & Hj1 & Hcond & Hid1).
  specialize (Hid1 id Hid).
  assert (Hr : modify_remote_system_required
                 (remote_sys_details l1) patch = inr true).
  { rewrite Hd1.
    destruct (modify_remote_system_required_dict d patch) as (b & -> & Hb).
    f_equal. apply Hb. exists key. exact Hdiff. }
  destruct (modify_block_required HTTP_ERR client params l1 tr0 Hcond Hr)
    as (o & ext & Hrun & Hext & Hne & _ & Hret).
  rewrite Hid1 in Hrun. fold patch in Hrun. fold c in Hrun.
  assert (Hmut : calls_of is_mutation (tr0 ++ c :: ext) = [c]).
  { rewrite calls_of_app, Hnm. cbn.
    change (filter is_mutation ext) with (calls_of is_mutation ext).
    rewrite (calls_of_none _ _ Hext). reflexivity. }
  assert (Hmod : calls_of is_modify (tr0 ++ c :: ext) = [c]).
  { rewrite calls_of_app.
    rewrite (calls_of_sub is_modify is_mutation tr0 is_modify_mutation Hnm).
    cbn. change (filter is_modify ext) with (calls_of is_modify ext).
    rewrite (calls_of_sub is_modify is_mutation ext is_modify_mutation
               (calls_of_none _ _ Hext)). reflexivity. }
  assert (Hin : forall key',
             differing d patch key' ->
             exists arg, dict_get key' patch = Some arg /\ arg <> PNone).
  { intros key' (cur & arg & _ & H2 & H3 & _). eauto. }
  unfold bind. rewrite Hrun.
  destruct o as [l'|e|x].
  - rewrite report_run. eexists; exists ext.
    split; [reflexivity |]. split; [exact Hmod |]. split; [exact Hmut |].
    split; [reflexivity |]. split; [exact Hin |].
    intros result [= <-]. destruct (Hret l' eq_refl) as [-> _].
    destruct (truthy (job_id l')); reflexivity.
  - exists (Raise e), ext. split; [reflexivity |]. split; [exact Hmod |].
    split; [exact Hmut |]. split; [reflexivity |]. split; [exact Hin |].
    discriminate.
  - exists (SystemExit x), ext. split; [reflexivity |]. split; [exact Hmod |].
    split; [exact Hmut |]. split; [reflexivity |]. split; [exact Hin |].
    intros result [= ->]. exfalso. eapply Hne. reflexivity.
Qed.

End ModifyAndCreate.

Section CreateAndLookup.

Variable HTTP_ERR : Z.
Variable client : array_client.

(** C2: on the create path ([state = present], nothing found by the
    lookup, neither [remote_id] nor [remote_name] given) the certificate
    exchange is called exactly once, and no create call is made before it.
    If the exchange fails the module fails there and makes no create call;
    if it succeeds the create call is the very next call, and the only
    one. *)
Theorem create_path_exchanges_once_before_create (params : module_params)
  (l : locals) (tr0 : list call) :
  state params = "present" ->
  lookup_phase HTTP_ERR client params [] = (Return l, tr0) ->
  truthy (remote_sys_details l) = false ->
  truthy (of_ostr (remote_id params))
    || truthy (of_ostr (remote_name params)) = false ->
  let c := configuration_exchange_certificate
             [ ("address", of_ostr (remote_address params));
               ("port", PInt (remote_port params));
               ("username", of_ostr (remote_user params));
               ("password", of_ostr (remote_password params));
               ("service", PStr "Replication_HTTP") ] in
  let c' := protection_create_remote_system
              [ ("management_address", of_ostr (remote_address params));
                ("description", of_ostr (description params));
                ("data_network_latency", of_ostr (network_latency params)) ] in
  exists out ext,
    perform_module_operation HTTP_ERR client params []
    = (out, tr0 ++ c :: ext) /\
    calls_of is_exchange (tr0 ++ c :: ext) = [c] /\
    calls_of is_create tr0 = [] /\
    (forall e, client tr0 c = inl e ->
       out = SystemExit (FailJson (Exchange_certificate_failed e)) /\
       ext = [] /\
       calls_of is_create (tr0 ++ c :: ext) = []) /\
    (forall v, client tr0 c = inr v ->
       exists ext', ext = c' :: ext' /\
                    calls_of is_create (tr0 ++ c :: ext) = [c']).
Proof.
  intros Hs Hl Hd Hid c c'.
  pose proof (lookup_phase_no_mutation _ _ _ _ _ Hl) as Hnm.
  pose proof (calls_of_sub _ _ tr0 is_exchange_mutation Hnm) as Hnx.
  pose proof (calls_of_sub _ _ tr0 is_create_mutation Hnm) as Hnc.
  rewrite (perform_after_lookup _ _ _ _ _ _ Hl).
  apply lookup_phase_inv in Hl as (Hl & _ & _).
  assert (Ha : remote_sys_address l = of_ostr (remote_address params))
    by (rewrite Hl; reflexivity).
  assert (Hid' : truthy (remote_sys_id l) || truthy (remote_sys_name l) = false)
    by (rewrite Hl; exact Hid).
  assert (Hcond : negb (truthy (remote_sys_details l))
                  && String.eqb (state params) "present" = true)
    by (rewrite Hd, Hs; reflexivity).
  destruct (create_block_run client params l tr0 Hcond Hid')
    as (o & ext & Hrun & Hne & Hfail & Hok & Hret).
  rewrite Ha in Hrun, Hfail, Hok. fold c in Hrun, Hfail, Hok.
  fold c' in Hok.
  unfold reconcile. unfold bind at 1.
  rewrite (backfill_identifiers_skip l tr0 Hd).
  unfold bind at 1. rewrite Hrun.
  destruct (client tr0 c) as [e|v] eqn:Hx.
  - destruct (Hfail e eq_refl) as [-> ->].
    eexists; exists []. split; [reflexivity |].
    split; [rewrite calls_of_app, Hnx; reflexivity |].
    split; [exact Hnc |]. split.
    + intros e' [= <-]. split; [reflexivity |]. split; [reflexivity |].
      rewrite calls_of_app, Hnc. reflexivity.
    + discriminate.
  - destruct (Hok v eq_refl) as (ext1 & -> & Hext1).
    pose proof (calls_of_none _ _ Hext1) as Hm1.
    pose proof (calls_of_sub _ _ ext1 is_exchange_mutation Hm1) as Hx1.
    pose proof (calls_of_sub _ _ ext1 is_create_mutation Hm1) as Hc1.
    assert (Hshape : forall ext2,
              calls_of is_exchange ext2 = [] -> calls_of is_create ext2 = [] ->
              calls_of is_exchange (tr0 ++ c :: (c' :: ext1) ++ ext2) = [c] /\
              calls_of is_create (tr0 ++ c :: (c' :: ext1) ++ ext2) = [c']).
    { intros ext2 H1 H2.
      rewrite !calls_of_app, Hnx, Hnc. cbn.
      change (filter is_exchange (ext1 ++ ext2))
        with (calls_of is_exchange (ext1 ++ ext2)).
      change (filter is_create (ext1 ++ ext2))
        with (calls_of is_create (ext1 ++ ext2)).
      rewrite !calls_of_app, Hx1, Hc1, H1, H2. auto. }
    destruct o as [l1|e|x].
    + unfold bind at 1.
      rewrite delete_block_skip by (rewrite Hs; apply andb_false_r).
      unfold bind.
      destruct (modify_block_cases HTTP_ERR client params l1
                  (tr0 ++ c :: c' :: ext1)) as (o2 & ext2 & -> & _ & Hcases).
      assert (Hx2 : calls_of is_exchange ext2 = [] /\
                    calls_of is_create ext2 = []).
      { destruct Hcases as [[-> _]|(ext3 & -> & Hext3 & _)];
          [split; reflexivity |].
        pose proof (calls_of_none _ _ Hext3) as Hm3. cbn.
        split; [apply (calls_of_sub _ _ ext3 is_exchange_mutation Hm3)
               | apply (calls_of_sub _ _ ext3 is_create_mutation Hm3)]. }
      destruct Hx2 as [Hx2 Hc2].
      destruct (Hshape ext2 Hx2 Hc2) as [Hsx Hsc].
      rewrite <- app_assoc. cbn [app].
      exists (match o2 with
              | Return a => fst (report a (tr0 ++ c :: c' :: ext1 ++ ext2))
              | Raise e => Raise e
              | SystemExit x => SystemExit x
              end), (c' :: ext1 ++ ext2).
      split; [destruct o2; try reflexivity; rewrite report_run; reflexivity |].
      split; [exact Hsx |]. split; [exact Hnc |].
      split; [discriminate |]. intros _ _. eexists. split; [reflexivity |].
      exact Hsc.
    + destruct (Hshape [] eq_refl eq_refl) as [Hsx Hsc].
      rewrite app_nil_r in Hsx, Hsc.
      exists (Raise e), (c' :: ext1). split; [reflexivity |].
      split; [exact Hsx |]. split; [exact Hnc |].
      split; [discriminate |]. intros _ _. eexists. split; [reflexivity |].
      exact Hsc.
    + destruct (Hshape [] eq_refl eq_refl) as [Hsx Hsc].
      rewrite app_nil_r in Hsx, Hsc.
      exists (SystemExit x), (c' :: ext1). split; [reflexivity |].
      split; [exact Hsx |]. split; [exact Hnc |].
      split; [discriminate |]. intros _ _. eexists. split; [reflexivity |].
      exact Hsc.
Qed.

(** C6: when the call of the lookup fails, a 404 (a [PowerStoreException]
    with [err_code = HTTP_ERR] and [status_code = "404"]) makes the lookup
    return [None], and the module goes on as it does when nothing was
    found; any other failure stops the module with [fail_json] right after
    that call. *)
Theorem lookup_404_is_not_found (params : module_params) (tr1 : list call)
  (e : pyexn) :
  check_clusters client [] = (Return tt, tr1) ->
  check_identifiers (collect_input params) tr1 = (Return tt, tr1) ->
  client tr1 (lookup_call params) = inl e ->
  let name := of_ostr (remote_name params) in
  let address := of_ostr (remote_address params) in
  let id := of_ostr (remote_id params) in
  (is_not_found HTTP_ERR e = true <->
   exists err_code status_code,
     e = PowerStoreException err_code status_code /\
     py_eq err_code (PInt HTTP_ERR) = true /\ status_code = PStr "404") /\
  get_remote_system_details HTTP_ERR client name address id tr1 =
  (if is_not_found HTTP_ERR e then Return PNone
   else SystemExit (FailJson (Get_details_failed name id e)),
   tr1 ++ [lookup_call params]) /\
  perform_module_operation HTTP_ERR client params [] =
  (if is_not_found HTTP_ERR e
   then reconcile HTTP_ERR client params
          (set_remote_sys_details (collect_input params) PNone)
          (tr1 ++ [lookup_call params])
   else (SystemExit (FailJson (Get_details_failed name id e)),
         tr1 ++ [lookup_call params])).
Proof.
  intros Hcc Hci Hx name address id.
  assert (Hget : get_remote_system_details HTTP_ERR client name address id tr1 =
                 (if is_not_found HTTP_ERR e then Return PNone
                  else SystemExit (FailJson (Get_details_failed name id e)),
                  tr1 ++ [lookup_call params])).
  { destruct (get_remote_system_details_run HTTP_ERR client name address id tr1)
      as (o & Hrun & _ & Hfail).
    unfold lookup_call in Hx. fold address id in Hx.
    rewrite (Hfail e Hx) in Hrun. exact Hrun. }
  split; [| split; [exact Hget |]].
  - destruct e; cbn; try (split; [discriminate | intros (? & ? & [=] & _)]).
    rewrite andb_true_iff, py_eq_str. split.
    + intros [H1 H2]. eauto.
    + intros (ec & sc & [= <- <-] & H1 & H2). auto.
  - unfold perform_module_operation, lookup_phase.
    unfold bind at 1. unfold bind at 1. rewrite Hcc.
    unfold bind at 1. rewrite Hci.
    unfold bind at 1.
    change (remote_sys_name (collect_input params)) with name.
    change (remote_sys_address (collect_input params)) with address.
    change (remote_sys_id (collect_input params)) with id.
    rewrite Hget. destruct (is_not_found HTTP_ERR e); reflexivity.
Qed.

End CreateAndLookup.

(** C1, as the claim words it, fails: the patch of the modify call is not
    made of the differing fields only.  The play asks for a new description
    and for the latency the record already has; the record is found, the
    description differs, and the one modify call carries all three fields,
    [data_network_latency] (which does not differ) among them. *)
Lemma modify_patch_has_fields_that_do_not_differ :
  let params :=
    with_description "new" (with_latency "Low" (with_id "abc" (play "present")))
  in
  state params = "present" /\
  (exists l tr0,
     lookup_phase 1 array_with_peer params [] = (Return l, tr0) /\
     remote_sys_details l = PDict sample_details) /\
  differing sample_details (modify_remote_sys_dict_of params) "description" /\
  ~ (exists out tr id patch a,
       perform_module_operation 1 array_with_peer params [] = (out, tr) /\
       calls_of is_modify tr = [protection_modify_remote_system id patch a] /\
       forall key,
         dict_has key patch = true <->
         differing sample_details (modify_remote_sys_dict_of params) key).
Proof.
  intros params. split; [reflexivity |]. split; [| split].
  - eexists; eexists. split; reflexivity.
  - exists (PStr "old"), (PStr "new").
    repeat split; [discriminate].
  - intros (out & tr & id & patch & a & Hrun & Hcalls & Hkeys).
    vm_compute in Hrun. injection Hrun as <- <-.
    vm_compute in Hcalls. injection Hcalls as <- <- <-.
    destruct (proj1 (Hkeys "data_network_latency") eq_refl)
      as (cur & arg & H1 & H2 & _ & H4).
    vm_compute in H1, H2. injection H1 as <-. injection H2 as <-.
    discriminate H4.
Qed.

Section Result.

Variable HTTP_ERR : Z.
Variable client : array_client.

(** Whatever the create block does, it asks for no job and leaves [job_id]
    as it is. *)
Lemma create_block_cases (params : module_params) (l : locals)
  (tr : list call) :
  exists o ext,
    create_block client params l tr = (o, tr ++ ext) /\
    (forall result, o <> SystemExit (ExitJson result)) /\
    calls_of yields_job ext = [] /\
    (forall l', o = Return l' -> job_id l' = job_id l).
Proof.
  destruct (negb (truthy (remote_sys_details l))
            && String.eqb (state params) "present") eqn:Hc.
  - destruct (truthy (remote_sys_id l) || truthy (remote_sys_name l)) eqn:Hid.
    + exists (SystemExit (FailJson Id_or_name_at_creation)), [].
      rewrite app_nil_r. split; [apply create_block_rejects; assumption |].
      split; [discriminate |]. split; [reflexivity | discriminate].
    + destruct (create_block_run client params l tr Hc Hid)
        as (o & ext & Hrun & Hne & Hfail & Hok & Hret).
      eexists; eexists. split; [exact Hrun |]. split; [exact Hne |].
      split; [| intros l' Hl'; apply (Hret l' Hl')].
      cbn. destruct (client tr _) as [e|v].
      * destruct (Hfail e eq_refl) as [-> _]. reflexivity.
      * destruct (Hok v eq_refl) as (ext' & -> & Hext'). cbn.
        apply (calls_of_sub yields_job is_mutation ext' yields_job_mutation).
        apply calls_of_none. exact Hext'.
  - exists (Return l), []. rewrite app_nil_r.
    split; [apply create_block_skip; assumption |].
    split; [discriminate |]. split; [reflexivity |].
    intros l' [= <-]. reflexivity.
Qed.

(** C10: a run that ends in [exit_json] reports [changed] and
    [job_details], and reports [remote_system_details] exactly when
    [job_details] is falsy.  Either no call of the run asked for a job and
    [job_details] is [None]; or the last call of the run is a delete or an
    asynchronous modify, and [job_details] is what that call answered: a
    truthy answer (a job handle) leaves [remote_system_details] out, and
    after a delete with a falsy answer [remote_system_details] is [None]. *)
Theorem result_keys (params : module_params) (result : dict)
  (tr : list call) :
  perform_module_operation HTTP_ERR client params []
  = (SystemExit (ExitJson result), tr) ->
  exists changed job_details,
    dict_get "changed" result = Some (PBool changed) /\
    dict_get "job_details" result = Some job_details /\
    (dict_has "remote_system_details" result = true <->
     truthy job_details = false) /\
    ((calls_of yields_job tr = [] /\ job_details = PNone) \/
     (exists tr' c,
        tr = tr' ++ [c] /\ yields_job c = true /\
        client tr' c = inr job_details /\
        (is_delete c = true -> truthy job_details = false ->
         dict_get "remote_system_details" result = Some PNone))).
Proof.
  intros H. unfold perform_module_operation in H. unfold bind at 1 in H.
  destruct (lookup_phase HTTP_ERR client params []) as [o tr0] eqn:Hl.
  destruct (lookup_phase_trace _ _ _ _ _ _ Hl) as (Hne0 & ext0 & Htr0 & Hext0).
  cbn in Htr0. subst tr0.
  apply calls_of_none in Hext0.
  pose proof (calls_of_sub yields_job is_mutation ext0 yields_job_mutation Hext0)
    as Hj0.
  destruct o as [l|e|x];
    [| discriminate | injection H as -> _; exfalso; eapply Hne0; reflexivity].
  apply lookup_phase_inv in Hl as (Hll & _ & _).
  assert (Hjl : job_id l = PNone) by (rewrite Hll; reflexivity).
  clear Hll Hne0.
  unfold reconcile in H. unfold bind at 1 in H.
  destruct (backfill_identifiers_run l ext0) as (o1 & Hb & Hne1 & Hret1).
  rewrite Hb in H.
  destruct o1 as [l1|e|x];
    [| discriminate | injection H as -> _; exfalso; eapply Hne1; reflexivity].
  destruct (Hret1 l1 eq_refl) as (_ & _ & Hj1). rewrite Hjl in Hj1.
  clear Hb Hne1 Hret1.
  unfold bind at 1 in H.
  destruct (create_block_cases params l1 ext0) as (o2 & ext2 & Hc & Hne2 & Hy2 & Hret2).
  rewrite Hc in H.
  destruct o2 as [l2|e|x];
    [| discriminate | injection H as -> _; exfalso; eapply Hne2; reflexivity].
  specialize (Hret2 l2 eq_refl). rewrite Hj1 in Hret2.
  clear Hc Hne2.
  assert (Hy : calls_of yields_job (ext0 ++ ext2) = [])
    by (rewrite calls_of_app, Hj0, Hy2; reflexivity).
  unfold bind at 1 in H.
  destruct (truthy (remote_sys_details l2)
            && String.eqb (state params) "absent") eqn:Hdel.
  - (* the delete branch *)
    rewrite (delete_block_run client params l2 (ext0 ++ ext2) Hdel) in H.
    destruct (client (ext0 ++ ext2) _) as [e|resp] eqn:Hx; [discriminate |].
    unfold bind in H.
    rewrite modify_block_skip in H by reflexivity.
    rewrite report_run in H. cbn in H.
    injection H as <- <-.
    exists true, resp.
    destruct (truthy resp) eqn:Ht; cbn;
      (split; [reflexivity |]); (split; [reflexivity |]);
      (split; [split; congruence |]);
      right; eexists; eexists;
      (split; [reflexivity |]); (split; [reflexivity |]);
      (split; [exact Hx |]); intros _ Hf; [discriminate | reflexivity].
  - rewrite (delete_block_skip client params l2 (ext0 ++ ext2) Hdel) in H.
    unfold bind in H.
    destruct (modify_block_cases HTTP_ERR client params l2 (ext0 ++ ext2))
      as (o3 & ext3 & Hm & Hne3 & Hcases).
    rewrite Hm in H.
    destruct o3 as [l3|e|x];
      [| discriminate | injection H as -> _; exfalso; eapply Hne3; reflexivity].
    rewrite report_run in H. injection H as <- <-.
    destruct Hcases as [[-> Hsame]|(ext' & -> & Hext' & Hret3)].
    + (* no modify call *)
      rewrite (Hsame l3 eq_refl), Hret2. cbn.
      eexists; eexists. split; [reflexivity |]. split; [reflexivity |].
      split; [split; reflexivity |]. left.
      rewrite app_nil_r. auto.
    + destruct (Hret3 l3 eq_refl) as [Hch Hrest].
      destruct (is_async_of params) eqn:Ha.
      * (* asynchronous modify *)
        destruct Hrest as (-> & Hx & _).
        exists (changed l3), (job_id l3).
        destruct (truthy (job_id l3)) eqn:Ht; cbn;
          (split; [reflexivity |]); (split; [reflexivity |]);
          (split; [split; congruence |]);
          right; eexists; eexists;
          (split; [reflexivity |]); (split; [reflexivity |]);
          (split; [exact Hx |]); discriminate.
      * (* synchronous modify *)
        rewrite Hrest, Hret2. cbn.
        eexists; eexists. split; [reflexivity |]. split; [reflexivity |].
        split; [split; reflexivity |]. left. split; [| reflexivity].
        rewrite calls_of_app, Hy. cbn.
        apply (calls_of_sub yields_job is_mutation ext' yields_job_mutation).
        apply calls_of_none. exact Hext'.
Qed.

End Result.

(** ** The theorems on sample runs *)

(** The play asks for a new description and for the latency the found
    system already has: one modify call with the whole candidate dict. *)
Lemma present_with_difference_modifies_once_witness :
  let params :=
    with_description "new" (with_latency "Low" (with_id "abc" (play "present")))
  in
  let c := protection_modify_remote_system (PStr "abc")
             [ ("management_address", PNone); ("description", PStr "new");
               ("data_network_latency", PStr "Low") ] true in
  let tr0 := [ provisioning_get_cluster_list;
               protection_get_remote_system_details (PStr "abc") ] in
  exists out ext,
    perform_module_operation 1 array_with_peer params [] = (out, tr0 ++ c :: ext)
    /\ calls_of is_modify (tr0 ++ c :: ext) = [c]
    /\ calls_of is_mutation (tr0 ++ c :: ext) = [c].
Proof.
  intros params c tr0.
  destruct (present_with_difference_modifies_once 1 array_with_peer params
              (set_remote_sys_details (collect_input params)
                 (PDict sample_details))
              tr0 sample_details (PStr "abc") "description")
    as (out & ext & H1 & H2 & H3 & _).
  - reflexivity.
  - reflexivity.
  - reflexivity.
  - reflexivity.
  - intros H. discriminate H.
  - reflexivity.
  - exists (PStr "old"), (PStr "new").
    split; [reflexivity |]. split; [reflexivity |].
    split; [discriminate | reflexivity].
  - exists out, ext. split; [exact H1 |]. split; [exact H2 | exact H3].
Defined.

(** Creation of a peer at a new address: the exchange, then the create. *)
Lemma create_path_exchanges_once_before_create_witness :
  let params :=
    with_credentials "admin" "x" (with_address "10.1.1.1" (play "present")) in
  let c := configuration_exchange_certificate
             [ ("address", PStr "10.1.1.1"); ("port", PInt 443);
               ("username", PStr "admin"); ("password", PStr "x");
               ("service", PStr "Replication_HTTP") ] in
  let tr0 := [ provisioning_get_cluster_list;
               protection_get_remote_system_by_mgmt_address (PStr "10.1.1.1") ]
  in
  exists out ext,
    perform_module_operation 1 (array_without_peer 1) params []
    = (out, tr0 ++ c :: ext)
    /\ calls_of is_exchange (tr0 ++ c :: ext) = [c]
    /\ calls_of is_create tr0 = [].
Proof.
  intros params c tr0.
  destruct (create_path_exchanges_once_before_create 1 (array_without_peer 1)
              params
              (set_remote_sys_details (collect_input params) (PList []))
              tr0)
    as (out & ext & H1 & H2 & H3 & _).
  - reflexivity.
  - reflexivity.
  - reflexivity.
  - reflexivity.
  - exists out, ext. split; [exact H1 |]. split; [exact H2 | exact H3].
Defined.

(** The play repeats the latency the found system has: nothing to do. *)
Lemma present_without_difference_is_noop_witness :
  let params := with_latency "Low" (with_id "abc" (play "present")) in
  let tr0 := [ provisioning_get_cluster_list;
               protection_get_remote_system_details (PStr "abc") ] in
  perform_module_operation 1 array_with_peer params [] =
  (SystemExit
     (ExitJson [ ("changed", PBool false); ("job_details", PNone);
                 ("remote_system_details", PDict sample_details) ]), tr0) /\
  calls_of is_modify tr0 = [] /\
  calls_of is_mutation tr0 = [].
Proof.
  intros params tr0.
  apply (present_without_difference_is_noop 1 array_with_peer params
           (set_remote_sys_details (collect_input params)
              (PDict sample_details))
           tr0 sample_details).
  - reflexivity.
  - reflexivity.
  - reflexivity.
  - reflexivity.
  - intros H. discriminate H.
  - intros key arg. cbn.
    destruct (String.eqb key "management_address");
      [intros [= <-]; left; reflexivity |].
    destruct (String.eqb key "description");
      [intros [= <-]; left; reflexivity |].
    destruct (String.eqb key "data_network_latency") eqn:E;
      [| discriminate].
    apply String.eqb_eq in E. subst key.
    intros [= <-]. right. exists (PStr "Low"). split; reflexivity.
Defined.

(** Removing a peer that is not registered. *)
Lemma absent_and_not_found_is_noop_witness :
  let params := with_address "10.9.9.9" (play "absent") in
  let tr0 := [ provisioning_get_cluster_list;
               protection_get_remote_system_by_mgmt_address (PStr "10.9.9.9") ]
  in
  perform_module_operation 1 (array_without_peer 1) params [] =
  (SystemExit
     (ExitJson [ ("changed", PBool false); ("job_details", PNone);
                 ("remote_system_details", PList []) ]), tr0) /\
  calls_of is_mutation tr0 = [].
Proof.
  intros params tr0.
  apply (absent_and_not_found_is_noop 1 (array_without_peer 1) params
           (set_remote_sys_details (collect_input params) (PList [])) tr0);
    reflexivity.
Defined.

(** Creation asked for with a name. *)
Lemma creation_rejects_id_or_name_witness :
  let params := with_name "peer" (with_address "10.9.9.9" (play "present")) in
  let tr0 := [ provisioning_get_cluster_list;
               protection_get_remote_system_by_mgmt_address (PStr "10.9.9.9") ]
  in
  perform_module_operation 1 (array_without_peer 1) params [] =
  (SystemExit (FailJson Id_or_name_at_creation), tr0) /\
  calls_of is_mutation tr0 = [].
Proof.
  intros params tr0.
  apply (creation_rejects_id_or_name 1 (array_without_peer 1) params
           (set_remote_sys_details (collect_input params) (PList [])) tr0);
    reflexivity.
Defined.

(** A lookup by id on an array that does not know the id, and so answers
    404: the module goes on as it does when nothing was found. *)
Lemma lookup_404_is_not_found_witness :
  let params := with_id "abc" (play "absent") in
  let e := PowerStoreException (PInt 1) (PStr "404") in
  let tr := [ provisioning_get_cluster_list;
              protection_get_remote_system_details (PStr "abc") ] in
  is_not_found 1 e = true /\
  get_remote_system_details 1 (array_without_peer 1)
    PNone PNone (PStr "abc") [provisioning_get_cluster_list]
  = (Return PNone, tr) /\
  perform_module_operation 1 (array_without_peer 1) params [] =
  reconcile 1 (array_without_peer 1) params
    (set_remote_sys_details (collect_input params) PNone) tr.
Proof.
  intros params e tr.
  destruct (lookup_404_is_not_found 1 (array_without_peer 1) params
              [provisioning_get_cluster_list] e)
    as (_ & H2 & H3).
  - reflexivity.
  - reflexivity.
  - reflexivity.
  - split; [reflexivity |]. split; [exact H2 | exact H3].
Defined.

(** The play names a peer that the id does not resolve to. *)
Lemma name_mismatch_is_fatal_witness :
  let params := with_name "other" (with_id "abc" (play "present")) in
  let tr0 := [ provisioning_get_cluster_list;
               protection_get_remote_system_details (PStr "abc") ] in
  perform_module_operation 1 array_with_peer params [] =
  (SystemExit (FailJson Remote_name_not_matching), tr0) /\
  calls_of is_mutation tr0 = [].
Proof.
  intros params tr0.
  apply (name_mismatch_is_fatal 1 array_with_peer params
           (set_remote_sys_details (collect_input params)
              (PDict sample_details))
           tr0 sample_details "other" (PStr "peer")).
  - reflexivity.
  - reflexivity.
  - reflexivity.
  - discriminate.
  - reflexivity.
  - discriminate.
  - left. reflexivity.
Defined.

(** A play that gives the id only: the name and the address come from the
    record, the id stays. *)
Lemma identifiers_backfilled_from_found_record_witness :
  let params := with_id "xyz" (play "present") in
  exists l',
    backfill_identifiers
      (set_remote_sys_details (collect_input params) (PDict sample_details))
      []
    = (Return l', []) /\
    remote_sys_id l' = PStr "xyz" /\
    remote_sys_name l' = PStr "peer" /\
    remote_sys_address l' = PStr "10.1.1.1" /\
    remote_sys_details l' = PDict sample_details.
Proof.
  intros params.
  apply (identifiers_backfilled_from_found_record params sample_details []
           (PStr "abc") (PStr "peer") (PStr "10.1.1.1")).
  - reflexivity.
  - reflexivity.
  - reflexivity.
  - intros H. discriminate H.
Defined.

(** A delete that the array answers with an empty body. *)
Lemma result_keys_witness :
  exists changed job_details,
    let result := [ ("changed", PBool true); ("job_details", PNone);
                    ("remote_system_details", PNone) ] in
    let tr := [ provisioning_get_cluster_list;
                protection_get_remote_system_details (PStr "abc");
                protection_delete_remote_system (PStr "abc") false ] in
    dict_get "changed" result = Some (PBool changed) /\
    dict_get "job_details" result = Some job_details /\
    (dict_has "remote_system_details" result = true <->
     truthy job_details = false) /\
    ((calls_of yields_job tr = [] /\ job_details = PNone) \/
     (exists tr' c,
        tr = tr' ++ [c] /\ yields_job c = true /\
        array_deleting_silently tr' c = inr job_details /\
        (is_delete c = true -> truthy job_details = false ->
         dict_get "remote_system_details" result = Some PNone))).
Proof.
  apply (result_keys 1 array_deleting_silently
           (waiting true (with_id "abc" (play "absent")))).
  reflexivity.
Defined.

(** ** The shape of every run *)

Section Shape.

Variable HTTP_ERR : Z.
Variable client : array_client.

(** Whatever the create block does: nothing; or an exchange that fails; or
    an exchange and a create, after which a returning block has set
    [changed] and holds a record. *)
Lemma create_block_shape (params : module_params) (l : locals)
  (tr : list call) :
  exists o ext,
    create_block client params l tr = (o, tr ++ ext) /\
    (forall result, o <> SystemExit (ExitJson result)) /\
    ((ext = [] /\ forall l', o = Return l' -> l' = l) \/
     (String.eqb (state params) "present" = true /\
      exists x,
        is_exchange x = true /\
        ((ext = [x] /\ forall l', o <> Return l') \/
         (exists c ext',
            is_create c = true /\ ext = x :: c :: ext' /\
            forallb (fun c => negb (is_mutation c)) ext' = true /\
            forall l', o = Return l' ->
              changed l' = true /\ job_id l' = job_id l /\
              truthy (remote_sys_details l') = true)))).
Proof.
  destruct (negb (truthy (remote_sys_details l))
            && String.eqb (state params) "present") eqn:Hc.
  - destruct (truthy (remote_sys_id l) || truthy (remote_sys_name l)) eqn:Hid.
    + exists (SystemExit (FailJson Id_or_name_at_creation)), [].
      rewrite app_nil_r. split; [apply create_block_rejects; assumption |].
      split; [discriminate |]. left. split; [reflexivity | discriminate].
    + apply andb_true_iff in Hc as [Hd Hs].
      unfold create_block. rewrite Hd, Hs, Hid. cbn [andb].
      unfold bind at 1. unfold ret at 1. unfold bind at 1.
      rewrite exchange_certificates_run.
      set (x := configuration_exchange_certificate _).
      destruct (client tr x) as [e|v].
      * eexists; exists [x]. split; [reflexivity |]. split; [discriminate |].
        right. split; [reflexivity |]. exists x. split; [reflexivity |].
        left. split; [reflexivity | discriminate].
      * unfold bind at 1.
        destruct (create_remote_system_run client (remote_sys_address l)
                    (of_ostr (description params))
                    (of_ostr (network_latency params)) (tr ++ [x]))
          as (o & ext & -> & Hext & Ho).
        set (c := protection_create_remote_system _).
        rewrite <- app_assoc. cbn [app].
        destruct Ho as [[details ->]|[msg ->]].
        -- cbn [fst snd]. msimpl.
           destruct (py_getitem details "id") as [e|i] eqn:Hi; msimpl.
           ++ exists (Raise e), (x :: c :: ext).
              split; [reflexivity |]. split; [discriminate |].
              right. split; [reflexivity |]. exists x. split; [reflexivity |].
              right. exists c, ext. split; [reflexivity |].
              split; [reflexivity |]. split; [exact Hext | discriminate].
           ++ eexists; exists (x :: c :: ext).
              split; [reflexivity |]. split; [discriminate |].
              right. split; [reflexivity |]. exists x. split; [reflexivity |].
              right. exists c, ext. split; [reflexivity |].
              split; [reflexivity |]. split; [exact Hext |].
              intros l' [= <-]. cbn. split; [reflexivity |].
              split; [reflexivity |].
              destruct details; try discriminate. cbn in Hi.
              destruct (dict_get "id" d) eqn:Hd'; [| discriminate].
              eapply truthy_dict_get; eauto.
        -- exists (SystemExit (FailJson msg)), (x :: c :: ext).
           split; [reflexivity |]. split; [discriminate |].
           right. split; [reflexivity |]. exists x. split; [reflexivity |].
           right. exists c, ext. split; [reflexivity |].
           split; [reflexivity |]. split; [exact Hext | discriminate].
  - exists (Return l), []. rewrite app_nil_r.
    split; [apply create_block_skip; assumption |].
    split; [discriminate |]. left. split; [reflexivity |].
    intros l' [= <-]. reflexivity.
Qed.

Lemma no_mutation_calls (ext : list call) :
  forallb (fun c => negb (is_mutation c)) ext = true ->
  calls_of is_mutation ext = [].
Proof. apply calls_of_none. Qed.

Lemma modify_is_mutation (id : pyval) (d : dict) (a : bool) :
  is_mutation (protection_modify_remote_system id d a) = true.
Proof. reflexivity. Qed.

(** What the module does after the lookup, on any array: the calls it adds
    that change the array follow the pattern of the requested state, and a
    run that ends in [exit_json] reports [changed = True] exactly when it
    made such a call. *)
Lemma reconcile_shape (params : module_params) (l : locals)
  (tr0 tr : list call) (out : outcome unit) :
  changed l = false ->
  reconcile HTTP_ERR client params l tr0 = (out, tr) ->
  exists ext,
    tr = tr0 ++ ext /\
    (if String.eqb (state params) "absent"
     then absent_pattern (calls_of is_mutation ext)
     else present_pattern (calls_of is_mutation ext)) = true /\
    (String.eqb (state params) "present" = false ->
     String.eqb (state params) "absent" = false ->
     calls_of is_mutation ext = []) /\
    (forall result,
       out = SystemExit (ExitJson result) ->
       dict_get "changed" result
       = Some (PBool (match calls_of is_mutation ext with
                      | [] => false
                      | _ :: _ => true
                      end))).
Proof.
  intros Hch H.
  assert (Hnil : forall o : outcome unit,
            (forall result, o <> SystemExit (ExitJson result)) ->
            exists ext,
              tr0 = tr0 ++ ext /\
              (if String.eqb (state params) "absent"
               then absent_pattern (calls_of is_mutation ext)
               else present_pattern (calls_of is_mutation ext)) = true /\
              (String.eqb (state params) "present" = false ->
               String.eqb (state params) "absent" = false ->
               calls_of is_mutation ext = []) /\
              (forall result,
                 o = SystemExit (ExitJson result) ->
                 dict_get "changed" result
                 = Some (PBool (match calls_of is_mutation ext with
                                | [] => false
                                | _ :: _ => true
                                end)))).
  { intros o Hne. exists []. rewrite app_nil_r. split; [reflexivity |].
    split; [destruct (String.eqb (state params) "absent"); reflexivity |].
    split; [reflexivity |].
    intros result ->. exfalso. eapply Hne. reflexivity. }
  unfold reconcile in H. unfold bind at 1 in H.
  destruct (backfill_identifiers_run l tr0) as (o1 & Hb & Hne1 & Hret1).
  rewrite Hb in H. clear Hb.
  destruct o1 as [l1|e|x];
    [| injection H as <- <-; apply Hnil; discriminate
     | injection H as <- <-; apply Hnil; intros r [= ->]; eapply Hne1;
       reflexivity].
  destruct (Hret1 l1 eq_refl) as (_ & Hc1 & _). rewrite Hch in Hc1.
  clear Hne1 Hret1.
  unfold bind at 1 in H.
  destruct (create_block_shape params l1 tr0)
    as (o2 & ext2 & Hc & Hne2 & Hshape).
  rewrite Hc in H. clear Hc.
  destruct Hshape as [[-> Hsame]|(Hs & x & Hx & Hshape)].
  - (* the create block made no call *)
    rewrite app_nil_r in H.
    destruct o2 as [l2|e|y];
      [| injection H as <- <-; apply Hnil; discriminate
       | injection H as <- <-; apply Hnil; intros r [= ->]; eapply Hne2;
         reflexivity].
    rewrite (Hsame l2 eq_refl) in H. clear Hsame Hne2 l2.
    unfold bind at 1 in H.
    destruct (truthy (remote_sys_details l1)
              && String.eqb (state params) "absent") eqn:Hdel.
    + (* delete *)
      rewrite (delete_block_run client params l1 tr0 Hdel) in H.
      apply andb_true_iff in Hdel as [Hd Hs].
      destruct (client tr0 _) as [e|resp] eqn:Hresp.
      * injection H as <- <-. eexists. split; [reflexivity |].
        rewrite Hs. split; [reflexivity |].
        split; [intros _ Hn; discriminate Hn | discriminate].
      * unfold bind in H. rewrite modify_block_skip in H by reflexivity.
        rewrite report_run in H. injection H as <- <-.
        eexists. split; [reflexivity |]. rewrite Hs. split; [reflexivity |].
        split; [intros _ Hn; discriminate Hn |].
        intros result [= <-]. cbn. destruct (truthy resp); reflexivity.
    + rewrite (delete_block_skip client params l1 tr0 Hdel) in H.
      unfold bind in H.
      destruct (truthy (remote_sys_details l1)
                && String.eqb (state params) "present") eqn:Hcond.
      * (* the modify block runs: the state is present *)
        pose proof Hcond as Hsp. apply andb_true_iff in Hsp as [_ Hsp].
        apply String.eqb_eq in Hsp.
        destruct (modify_block_cases HTTP_ERR client params l1 tr0)
          as (o3 & ext3 & Hm & Hne3 & Hcases).
        rewrite Hm in H. clear Hm.
        destruct Hcases as [[-> Hsame]|(ext' & -> & Hext' & Hret3)].
        -- rewrite app_nil_r in H.
           destruct o3 as [l3|e|y];
             [| injection H as <- <-; apply Hnil; discriminate
              | injection H as <- <-; apply Hnil; intros r [= ->]; eapply Hne3;
                reflexivity].
           rewrite report_run in H. injection H as <- <-.
           exists []. rewrite app_nil_r. split; [reflexivity |].
           rewrite Hsp. split; [reflexivity |]. split; [reflexivity |].
           intros result [= <-]. rewrite (Hsame l3 eq_refl), Hc1.
           destruct (truthy (job_id l1)); reflexivity.
        -- set (m := protection_modify_remote_system _ _ _) in *.
           assert (Hmut : calls_of is_mutation (m :: ext') = [m]).
           { cbn. change (filter is_mutation ext')
               with (calls_of is_mutation ext').
             rewrite (no_mutation_calls _ Hext'). reflexivity. }
           exists (m :: ext'). rewrite Hmut, Hsp.
           destruct o3 as [l3|e|y].
           ++ rewrite report_run in H. injection H as <- <-.
              split; [reflexivity |]. split; [reflexivity |].
              split; [discriminate |].
              intros result [= <-]. destruct (Hret3 l3 eq_refl) as [-> _].
              destruct (truthy (job_id l3)); reflexivity.
           ++ injection H as <- <-. split; [reflexivity |].
              split; [reflexivity |]. split; [discriminate | discriminate].
           ++ injection H as <- <-. split; [reflexivity |].
              split; [reflexivity |]. split; [discriminate |].
              intros result [= ->]. exfalso. eapply Hne3. reflexivity.
      * rewrite (modify_block_skip HTTP_ERR client params l1 tr0 Hcond) in H.
        rewrite report_run in H. injection H as <- <-.
        exists []. rewrite app_nil_r. split; [reflexivity |].
        split; [destruct (String.eqb (state params) "absent"); reflexivity |].
        split; [reflexivity |].
        intros result [= <-]. rewrite Hc1.
        destruct (truthy (job_id l1)); reflexivity.
  - (* the create path: the state is present *)
    apply String.eqb_eq in Hs.
    destruct Hshape as [[-> Hnot]|(c & ext' & Hcc & -> & Hext' & Hret2)].
    + destruct o2 as [l2|e|y]; [exfalso; eapply Hnot; reflexivity | |];
        injection H as <- <-; exists [x]; (split; [reflexivity |]);
        rewrite Hs; cbn; rewrite (is_exchange_mutation x Hx); cbn;
        rewrite Hx; (split; [apply orb_true_r |]);
        (split; [discriminate |]).
      * discriminate.
      * intros result [= ->]. exfalso. eapply Hne2. reflexivity.
    + assert (Hmut2 : calls_of is_mutation (x :: c :: ext') = [x; c]).
      { cbn. rewrite (is_exchange_mutation x Hx), (is_create_mutation c Hcc).
        change (filter is_mutation ext') with (calls_of is_mutation ext').
        rewrite (no_mutation_calls _ Hext'). reflexivity. }
      destruct o2 as [l2|e|y].
      2:{ injection H as <- <-. exists (x :: c :: ext').
          split; [reflexivity |]. rewrite Hmut2, Hs. cbn. rewrite Hx, Hcc.
          split; [reflexivity |]. split; [discriminate | discriminate]. }
      2:{ injection H as <- <-. exists (x :: c :: ext').
          split; [reflexivity |]. rewrite Hmut2, Hs. cbn. rewrite Hx, Hcc.
          split; [reflexivity |]. split; [discriminate |].
          intros result [= ->]. exfalso. eapply Hne2. reflexivity. }
      destruct (Hret2 l2 eq_refl) as (Hch2 & _ & Hd2).
      unfold bind at 1 in H.
      rewrite delete_block_skip in H by (rewrite Hs; apply andb_false_r).
      unfold bind in H.
      destruct (modify_block_cases HTTP_ERR client params l2
                  (tr0 ++ x :: c :: ext'))
        as (o3 & ext3 & Hm & Hne3 & Hcases).
      rewrite Hm in H. clear Hm. rewrite <- app_assoc in H.
      destruct Hcases as [[-> Hsame]|(ext'' & -> & Hext'' & Hret3)].
      * rewrite app_nil_r in H. exists (x :: c :: ext').
        rewrite Hmut2, Hs. cbn. rewrite Hx, Hcc.
        destruct o3 as [l3|e|y].
        -- rewrite report_run in H. injection H as <- <-.
           split; [reflexivity |]. split; [reflexivity |].
           split; [discriminate |].
           intros result [= <-]. rewrite (Hsame l3 eq_refl), Hch2.
           destruct (truthy (job_id l2)); reflexivity.
        -- injection H as <- <-. split; [reflexivity |].
           split; [reflexivity |]. split; [discriminate | discriminate].
        -- injection H as <- <-. split; [reflexivity |].
           split; [reflexivity |]. split; [discriminate |].
           intros result [= ->]. exfalso. eapply Hne3. reflexivity.
      * set (m := protection_modify_remote_system _ _ _) in *.
        assert (Hmut3 : calls_of is_mutation ((x :: c :: ext') ++ m :: ext'')
                        = [x; c; m]).
        { rewrite calls_of_app, Hmut2. cbn.
          change (filter is_mutation ext'')
            with (calls_of is_mutation ext'').
          rewrite (no_mutation_calls _ Hext''). reflexivity. }
        exists ((x :: c :: ext') ++ m :: ext''). rewrite Hmut3, Hs.
        cbn [present_pattern String.eqb]. cbn. rewrite Hx, Hcc.
        destruct o3 as [l3|e|y].
        -- rewrite report_run in H. injection H as <- <-.
           split; [reflexivity |]. split; [reflexivity |].
           split; [discriminate |].
           intros result [= <-]. destruct (Hret3 l3 eq_refl) as [-> _].
           destruct (truthy (job_id l3)); reflexivity.
        -- injection H as <- <-. split; [reflexivity |].
           split; [reflexivity |]. split; [discriminate | discriminate].
        -- injection H as <- <-. split; [reflexivity |].
           split; [reflexivity |]. split; [discriminate |].
           intros result [= ->]. exfalso. eapply Hne3. reflexivity.
Qed.


(** The calls of the lookup phase: the cluster query, then the lookup when
    the preconditions hold. *)
Lemma lookup_phase_calls (params : module_params) (o : outcome locals)
  (tr tr' : list call) :
  lookup_phase HTTP_ERR client params tr = (o, tr') ->
  (forall result, o <> SystemExit (ExitJson result)) /\
  ((tr' = tr ++ [provisioning_get_cluster_list] /\ forall l, o <> Return l) \/
   tr' = tr ++ [provisioning_get_cluster_list; lookup_call params]).
Proof.
  unfold lookup_phase. unfold bind at 1.
  destruct (check_clusters_run client tr) as (o1 & -> & Hne).
  destruct o1 as [[]|e|x];
    [| intros [= <- <-]; split; [discriminate | left; split;
                                               [reflexivity | discriminate]]
     | intros [= <- <-]; split;
       [intros r [= ->]; eapply Hne; reflexivity
       | left; split; [reflexivity | discriminate]]].
  unfold bind at 1. unfold check_identifiers.
  destruct (_ && _ && _);
    [intros [= <- <-]; split; [discriminate | left; split;
                                              [reflexivity | discriminate]] |].
  unfold ret at 1. unfold bind.
  destruct (get_remote_system_details_run HTTP_ERR client
              (remote_sys_name (collect_input params))
              (remote_sys_address (collect_input params))
              (remote_sys_id (collect_input params))
              (tr ++ [provisioning_get_cluster_list])) as (o2 & -> & Ho & _).
  rewrite <- app_assoc.
  destruct Ho as [[v ->]|[msg ->]]; intros [= <- <-];
    (split; [discriminate | right; reflexivity]).
Qed.

Lemma lookup_calls_no_mutation (params : module_params) :
  calls_of is_mutation [provisioning_get_cluster_list; lookup_call params]
  = [].
Proof. unfold lookup_call. cbn. destruct (truthy _); reflexivity. Qed.

(** Every run, in one statement: where its calls start, and what
    [reconcile_shape] says of the rest. *)
Lemma perform_shape (params : module_params) (out : outcome unit)
  (tr : list call) :
  perform_module_operation HTTP_ERR client params [] = (out, tr) ->
  exists rest,
    tr = provisioning_get_cluster_list :: rest /\
    (rest = [] \/ exists rest', rest = lookup_call params :: rest') /\
    (if String.eqb (state params) "absent"
     then absent_pattern (calls_of is_mutation tr)
     else present_pattern (calls_of is_mutation tr)) = true /\
    (String.eqb (state params) "present" = false ->
     String.eqb (state params) "absent" = false ->
     calls_of is_mutation tr = []) /\
    (forall result,
       out = SystemExit (ExitJson result) ->
       dict_get "changed" result
       = Some (PBool (match calls_of is_mutation tr with
                      | [] => false
                      | _ :: _ => true
                      end))).
Proof.
  intros H. unfold perform_module_operation in H. unfold bind at 1 in H.
  destruct (lookup_phase HTTP_ERR client params []) as [o tr0] eqn:Hl.
  destruct (lookup_phase_calls _ _ _ _ Hl) as (Hne & Hcalls).
  destruct o as [l|e|x].
  - destruct Hcalls as [[_ Hnot]|Htr0]; [exfalso; eapply Hnot; reflexivity |].
    cbn in Htr0. subst tr0.
    apply lookup_phase_inv in Hl as (Hll & _ & _).
    assert (Hch : changed l = false) by (rewrite Hll; reflexivity).
    destruct (reconcile_shape params l _ _ _ Hch H)
      as (ext & -> & Hpat & Hother & Hchg).
    exists (lookup_call params :: ext). split; [reflexivity |].
    split; [right; eauto |].
    change (provisioning_get_cluster_list :: lookup_call params :: ext)
      with ([provisioning_get_cluster_list; lookup_call params] ++ ext).
    rewrite calls_of_app, lookup_calls_no_mutation. cbn [app].
    split; [exact Hpat |]. split; [exact Hother | exact Hchg].
  - injection H as <- <-.
    assert (Hm : calls_of is_mutation tr0 = []).
    { destruct Hcalls as [[-> _]| ->];
        [reflexivity | apply lookup_calls_no_mutation]. }
    exists (tl tr0). rewrite Hm.
    split; [destruct Hcalls as [[-> _]| ->]; reflexivity |].
    split; [destruct Hcalls as [[-> _]| ->]; cbn; eauto |].
    split; [destruct (String.eqb (state params) "absent"); reflexivity |].
    split; [reflexivity | discriminate].
  - injection H as <- <-.
    assert (Hm : calls_of is_mutation tr0 = []).
    { destruct Hcalls as [[-> _]| ->];
        [reflexivity | apply lookup_calls_no_mutation]. }
    exists (tl tr0). rewrite Hm.
    split; [destruct Hcalls as [[-> _]| ->]; reflexivity |].
    split; [destruct Hcalls as [[-> _]| ->]; cbn; eauto |].
    split; [destruct (String.eqb (state params) "absent"); reflexivity |].
    split; [reflexivity |].
    intros result [= ->]. exfalso. eapply Hne. reflexivity.
Qed.

(** X1: With [state = absent] a run never exchanges certificates, creates or
    modifies: the calls it makes that change the array are none, or one
    delete. *)
Theorem absent_run_only_deletes (params : module_params)
  (out : outcome unit) (tr : list call) :
  state params = "absent" ->
  perform_module_operation HTTP_ERR client params [] = (out, tr) ->
  absent_pattern (calls_of is_mutation tr) = true /\
  calls_of is_exchange tr = [] /\
  calls_of is_create tr = [] /\
  calls_of is_modify tr = [].
Proof.
  intros Hs H. destruct (perform_shape params out tr H)
    as (rest & _ & _ & Hpat & _).
  rewrite Hs in Hpat. cbn in Hpat. split; [exact Hpat |].
  assert (Hsub : forall f : call -> bool,
            (forall c, f c = true -> is_mutation c = true) ->
            (forall c, is_delete c = true -> f c = false) ->
            calls_of f tr = []).
  { intros f Hf Hd. clear H.
    assert (Hfm : calls_of f tr = calls_of f (calls_of is_mutation tr)).
    { clear Hpat. induction tr as [|c t IH]; cbn; [reflexivity |].
      destruct (f c) eqn:Hfc.
      - rewrite (Hf c Hfc). cbn. rewrite Hfc. f_equal. exact IH.
      - destruct (is_mutation c); cbn; [rewrite Hfc |]; exact IH. }
    rewrite Hfm. destruct (calls_of is_mutation tr) as [|c [|c' t]];
      [reflexivity | | discriminate].
    cbn in Hpat. cbn. rewrite (Hd c Hpat). reflexivity. }
  split; [| split].
  - apply Hsub; [exact is_exchange_mutation | destruct c; cbn; congruence].
  - apply Hsub; [exact is_create_mutation | destruct c; cbn; congruence].
  - apply Hsub; [exact is_modify_mutation | destruct c; cbn; congruence].
Qed.

(** X2: With [state = present] a run never deletes, and the calls it makes that
    change the array are, in order: none; or one modify; or an exchange
    alone; or an exchange and a create; or an exchange, a create and a
    modify. *)
Theorem present_run_never_deletes (params : module_params)
  (out : outcome unit) (tr : list call) :
  state params = "present" ->
  perform_module_operation HTTP_ERR client params [] = (out, tr) ->
  present_pattern (calls_of is_mutation tr) = true /\
  calls_of is_delete tr = [].
Proof.
  intros Hs H. destruct (perform_shape params out tr H)
    as (rest & _ & _ & Hpat & _).
  rewrite Hs in Hpat. cbn in Hpat. split; [exact Hpat |].
  assert (Hfm : calls_of is_delete tr
                = calls_of is_delete (calls_of is_mutation tr)).
  { clear. induction tr as [|c t IH]; cbn; [reflexivity |].
    destruct c; cbn; try exact IH; f_equal; exact IH. }
  rewrite Hfm.
  destruct (calls_of is_mutation tr) as [|c1 [|c2 [|c3 [|c4 t]]]];
    cbn in Hpat |- *; try discriminate; try reflexivity.
  - destruct c1; cbn in Hpat |- *; try discriminate; reflexivity.
  - destruct c1; cbn in Hpat; try discriminate.
    destruct c2; cbn in Hpat |- *; try discriminate; reflexivity.
  - destruct c1; cbn in Hpat; try discriminate.
    destruct c2; cbn in Hpat; try discriminate.
    destruct c3; cbn in Hpat |- *; try discriminate; reflexivity.
Qed.

(** X3: A run that ends in [exit_json] reports [changed = True] if and only if
    it made a call that changes the array. *)
Theorem changed_iff_mutated (params : module_params) (result : dict)
  (tr : list call) :
  perform_module_operation HTTP_ERR client params []
  = (SystemExit (ExitJson result), tr) ->
  exists b,
    dict_get "changed" result = Some (PBool b) /\
    (b = true <-> calls_of is_mutation tr <> []).
Proof.
  intros H. destruct (perform_shape params _ tr H)
    as (rest & _ & _ & _ & _ & Hchg).
  specialize (Hchg result eq_refl).
  eexists. split; [exact Hchg |].
  destruct (calls_of is_mutation tr); split; congruence.
Qed.

(** X4: No call is made before the cluster query, and the call after it, if
    there is one, is the lookup: nothing changes the array before the
    cluster precondition and the lookup. *)
Theorem cluster_query_then_lookup (params : module_params)
  (out : outcome unit) (tr : list call) :
  perform_module_operation HTTP_ERR client params [] = (out, tr) ->
  exists rest,
    tr = provisioning_get_cluster_list :: rest /\
    (rest = [] \/ exists rest', rest = lookup_call params :: rest').
Proof.
  intros H. destruct (perform_shape params out tr H) as (rest & H1 & H2 & _).
  exists rest. split; assumption.
Qed.

End Shape.

(** ** Preconditions and the paths of a run *)

Section Paths.

Variable HTTP_ERR : Z.
Variable client : array_client.

(** X5: When the array lists no cluster, the module fails with "Unable to find
    any active cluster" and makes no call but the cluster query. *)
Theorem no_active_cluster_is_fatal (params : module_params)
  (clusters : pyval) :
  client [] provisioning_get_cluster_list = inr clusters ->
  py_len clusters = inr 0%Z ->
  perform_module_operation HTTP_ERR client params [] =
  (SystemExit (FailJson No_active_cluster), [provisioning_get_cluster_list]).
Proof.
  intros Hc Hlen. unfold perform_module_operation, lookup_phase.
  unfold bind at 1. unfold bind at 1. unfold check_clusters.
  unfold bind at 1. rewrite get_clusters_run, Hc.
  unfold bind at 1. rewrite Hlen. reflexivity.
Qed.

(** X6: When the cluster query itself fails, the module fails with that
    exception and makes no other call. *)
Theorem cluster_query_failure_is_fatal (params : module_params)
  (e : pyexn) :
  client [] provisioning_get_cluster_list = inl e ->
  perform_module_operation HTTP_ERR client params [] =
  (SystemExit (FailJson (Get_clusters_failed e)),
   [provisioning_get_cluster_list]).
Proof.
  intros Hc. unfold perform_module_operation, lookup_phase.
  unfold bind at 1. unfold bind at 1. unfold check_clusters.
  unfold bind at 1. rewrite get_clusters_run, Hc. reflexivity.
Qed.

(** X7: A [remote_name] given without [remote_address] and without [remote_id]
    is rejected before the lookup: the only call made is the cluster
    query. *)
Theorem name_alone_is_rejected (params : module_params) (tr1 : list call) :
  check_clusters client [] = (Return tt, tr1) ->
  truthy (of_ostr (remote_name params)) = true ->
  truthy (of_ostr (remote_address params)) = false ->
  truthy (of_ostr (remote_id params)) = false ->
  perform_module_operation HTTP_ERR client params [] =
  (SystemExit (FailJson Name_without_address_or_id),
   [provisioning_get_cluster_list]).
Proof.
  intros Hcc Hn Ha Hi.
  destruct (check_clusters_run client []) as (o & Hrun & _).
  rewrite Hcc in Hrun. injection Hrun as _ ->.
  unfold perform_module_operation, lookup_phase.
  unfold bind at 1. unfold bind at 1. rewrite Hcc.
  unfold bind at 1. unfold check_identifiers. cbn [collect_input
    remote_sys_name remote_sys_address remote_sys_id].
  rewrite Hn, Ha, Hi. reflexivity.
Qed.

(** X8: The lookup by address: the first record of a non-empty list; the
    (empty) answer itself, not [None], when nothing matches.  The id is not
    consulted. *)
Theorem lookup_by_address (name address id : pyval) (tr : list call)
  (found : list pyval) :
  truthy address = true ->
  client tr (protection_get_remote_system_by_mgmt_address address)
  = inr (PList found) ->
  get_remote_system_details HTTP_ERR client name address id tr =
  (Return (match found with
           | [] => PList []
           | first :: _ => first
           end),
   tr ++ [protection_get_remote_system_by_mgmt_address address]).
Proof.
  intros Ha Hc. unfold get_remote_system_details. rewrite Ha.
  msimpl. rewrite Hc. destruct found; reflexivity.
Qed.

(** X9: The create helper never undoes a create: when the create call went
    through and the fetch of the new system fails, even with a 404, the
    module fails with "create remote system failed", after both calls. *)
Theorem create_then_fetch_failure (address description latency : pyval)
  (tr : list call) (resp id : pyval) (e : pyexn) :
  let c := protection_create_remote_system
             [ ("management_address", address);
               ("description", description);
               ("data_network_latency", latency) ] in
  client tr c = inr resp ->
  py_get resp "id" = inr id ->
  client (tr ++ [c]) (protection_get_remote_system_details id) = inl e ->
  create_remote_system client address description latency tr =
  (SystemExit (FailJson (Create_failed e)),
   tr ++ [c; protection_get_remote_system_details id]).
Proof.
  intros c Hc Hid Hf. unfold create_remote_system. msimpl.
  fold c. rewrite Hc. msimpl. rewrite Hid. msimpl. rewrite Hf. msimpl.
  rewrite <- app_assoc. reflexivity.
Qed.

(** X10: A create answered by something that is not a dict: the module fails
    with "create remote system failed" on the [AttributeError] of
    [resp.get], after the create call and without any fetch. *)
Theorem create_answer_without_get (address description latency : pyval)
  (tr : list call) (resp : pyval) :
  let c := protection_create_remote_system
             [ ("management_address", address);
               ("description", description);
               ("data_network_latency", latency) ] in
  client tr c = inr resp ->
  (forall d, resp <> PDict d) ->
  create_remote_system client address description latency tr =
  (SystemExit (FailJson (Create_failed AttributeError)), tr ++ [c]).
Proof.
  intros c Hc Hnd. unfold create_remote_system. msimpl.
  fold c. rewrite Hc. msimpl.
  destruct resp; try reflexivity. exfalso. eapply Hnd. reflexivity.
Qed.

(** X11: A found record without an [id], when the play gave no [remote_id]: the
    module does not fail with a message, it stops on the [KeyError] of
    line 542, having made no call that changes the array. *)
Theorem found_record_without_id_raises (params : module_params) (l : locals)
  (tr0 : list call) (d : dict) :
  lookup_phase HTTP_ERR client params [] = (Return l, tr0) ->
  remote_sys_details l = PDict d ->
  d <> [] ->
  dict_get "id" d = None ->
  truthy (of_ostr (remote_id params)) = false ->
  perform_module_operation HTTP_ERR client params [] =
  (Raise (KeyError (PStr "id")), tr0) /\
  calls_of is_mutation tr0 = [].
Proof.
  intros Hl Hd Hne Hid Hi.
  split; [| eapply lookup_phase_no_mutation; eauto].
  rewrite (perform_after_lookup _ _ _ _ _ _ Hl).
  apply lookup_phase_inv in Hl as (Hl & _ & _). rewrite Hd in Hl. subst l.
  unfold reconcile. unfold bind at 1. unfold backfill_identifiers.
  cbn [set_remote_sys_details collect_input remote_sys_details
       remote_sys_id remote_sys_name remote_sys_address].
  assert (Ht : truthy (PDict d) = true) by (destruct d; [contradiction | reflexivity]).
  rewrite Ht, Hi. msimpl. rewrite Hid. reflexivity.
Qed.

End Paths.

Section FoundAndCreated.

Variable HTTP_ERR : Z.
Variable client : array_client.

(** The lookup by id, which is also the fetch after a modify. *)
Lemma lookup_by_id (name address id : pyval) (tr : list call) :
  truthy address = false ->
  get_remote_system_details HTTP_ERR client name address id tr =
  (match client tr (protection_get_remote_system_details id) with
   | inr resp => Return resp
   | inl e =>
       if is_not_found HTTP_ERR e then Return PNone
       else SystemExit (FailJson (Get_details_failed name id e))
   end, tr ++ [protection_get_remote_system_details id]).
Proof.
  intros Ha. unfold get_remote_system_details. rewrite Ha. msimpl.
  destruct (client tr _) as [e|resp]; msimpl.
  - destruct (is_not_found HTTP_ERR e); reflexivity.
  - destruct (truthy resp); reflexivity.
Qed.

(** A run that found a well-formed record, up to the delete block. *)
Lemma reconcile_backfilled (params : module_params) (l : locals) (d : dict)
  (tr0 : list call) (id : pyval) :
  l = set_remote_sys_details (collect_input params) (PDict d) ->
  is_remote_system d = true ->
  name_matches params d ->
  dict_get "id" d = Some id ->
  exists l1,
    reconcile HTTP_ERR client params l tr0 =
    (l <- delete_block client params l1 ;;
     l <- modify_block HTTP_ERR client params l ;; report l) tr0 /\
    remote_sys_details l1 = PDict d /\
    changed l1 = false /\ job_id l1 = PNone /\
    truthy (remote_sys_details l1) = true /\
    remote_sys_id l1 = resolved_id params id.
Proof.
  intros -> Hrs Hm Hid.
  destruct (is_remote_system_keys d Hrs) as (id' & name & address & Hi & Hn & Ha).
  rewrite Hid in Hi. injection Hi as <-.
  pose proof (truthy_dict_get _ _ _ Hid) as Ht.
  eexists. split; [| split; [| split; [| split; [| split]]]].
  - unfold reconcile. unfold bind at 1.
    rewrite (backfill_identifiers_found _ d tr0 id name address);
      [| reflexivity | assumption | assumption | assumption
       | apply (name_matches_py_ne params d); assumption].
    unfold bind at 1.
    rewrite create_block_skip
      by (cbn [remote_sys_details set_remote_sys_details]; rewrite Ht;
          reflexivity).
    reflexivity.
  - reflexivity.
  - reflexivity.
  - reflexivity.
  - exact Ht.
  - reflexivity.
Qed.

(** X12: The delete path: with [state = absent] and a found remote system
    (a record with [id], [name] and [management_address]) whose name is the
    [remote_name] of the play when the play gives one, so that the name
    cross-check of lines 543-547 passes, the module makes one delete call,
    with the resolved id and the async flag, and nothing after it.  A
    truthy answer is reported as [job_details] and no details; a falsy
    answer gives [remote_system_details = None]; a failure ends in
    [fail_json]. *)
Theorem delete_path (params : module_params) (l : locals)
  (tr0 : list call) (d : dict) (id : pyval) :
  state params = "absent" ->
  lookup_phase HTTP_ERR client params [] = (Return l, tr0) ->
  remote_sys_details l = PDict d ->
  is_remote_system d = true ->
  name_matches params d ->
  dict_get "id" d = Some id ->
  let c := protection_delete_remote_system
             (resolved_id params id) (is_async_of params) in
  perform_module_operation HTTP_ERR client params [] =
  (match client tr0 c with
   | inr resp =>
       SystemExit
         (ExitJson
            (if truthy resp
             then [ ("changed", PBool true); ("job_details", resp) ]
             else [ ("changed", PBool true); ("job_details", resp);
                    ("remote_system_details", PNone) ]))
   | inl e => SystemExit (FailJson (Delete_failed (resolved_id params id) e))
   end, tr0 ++ [c]).
Proof.
  intros Hs Hl Hd Hrs Hm Hid c.
  rewrite (perform_after_lookup _ _ _ _ _ _ Hl).
  apply lookup_phase_inv in Hl as (Hl & _ & _). rewrite Hd in Hl.
  destruct (reconcile_backfilled params l d tr0 id Hl Hrs Hm Hid)
    as (l1 & -> & Hd1 & Hc1 & Hj1 & Ht1 & Hi1).
  unfold bind at 1.
  rewrite delete_block_run by (rewrite Ht1, Hs; reflexivity).
  rewrite Hi1. fold c.
  destruct (client tr0 c) as [e|resp]; [reflexivity |].
  unfold bind. rewrite modify_block_skip by reflexivity.
  rewrite report_run. cbn. destruct (truthy resp); reflexivity.
Qed.

(** The modify block when a modification is required, as an equation. *)
Lemma modify_block_required_eq (params : module_params) (l : locals)
  (tr : list call) :
  truthy (remote_sys_details l) && String.eqb (state params) "present" = true ->
  modify_remote_system_required
    (remote_sys_details l) (modify_remote_sys_dict_of params) = inr true ->
  let c := protection_modify_remote_system
             (remote_sys_id l) (modify_remote_sys_dict_of params)
             (is_async_of params) in
  modify_block HTTP_ERR client params l tr =
  match client tr c with
  | inl e =>
      (SystemExit (FailJson (Modify_failed (remote_sys_id l) e)), tr ++ [c])
  | inr resp =>
      if is_async_of params
      then (Return (set_job_id (set_changed l true) resp), tr ++ [c])
      else
        (details <- get_remote_system_details HTTP_ERR client
                      PNone PNone (remote_sys_id l) ;;
         ret (set_remote_sys_details (set_changed l true) details))
          (tr ++ [c])
  end.
Proof.
  intros Hc Hr c. unfold modify_block. rewrite Hc.
  unfold bind at 1. rewrite Hr. unfold py, ret at 1. cbv iota beta.
  unfold bind at 1. rewrite modify_remote_system_run. fold c.
  destruct (client tr c) as [e|resp]; [reflexivity |].
  cbn [fst snd]. destruct (is_async_of params); reflexivity.
Qed.

(** A run on a found record with a differing field, up to the answer of
    the modify call. *)
Lemma reconcile_modifying (params : module_params) (l : locals) (d : dict)
  (tr0 : list call) (id : pyval) (key : string) :
  state params = "present" ->
  l = set_remote_sys_details (collect_input params) (PDict d) ->
  is_remote_system d = true ->
  name_matches params d ->
  dict_get "id" d = Some id ->
  differing d (modify_remote_sys_dict_of params) key ->
  exists l1,
    reconcile HTTP_ERR client params l tr0 =
    (l <- modify_block HTTP_ERR client params l1 ;; report l) tr0 /\
    remote_sys_details l1 = PDict d /\
    changed l1 = false /\ job_id l1 = PNone /\
    remote_sys_id l1 = resolved_id params id /\
    truthy (remote_sys_details l1)
      && String.eqb (state params) "present" = true /\
    modify_remote_system_required
      (remote_sys_details l1) (modify_remote_sys_dict_of params) = inr true.
Proof.
  intros Hs Hl Hrs Hm Hid Hdiff.
  destruct (reconcile_found HTTP_ERR client params l d tr0 Hs Hl Hrs Hm)
    as (l1 & Hrun & Hd1 & Hc1 & Hj1 & Hcond & Hid1).
  exists l1. split; [exact Hrun |]. split; [exact Hd1 |].
  split; [exact Hc1 |]. split; [exact Hj1 |].
  split; [exact (Hid1 id Hid) |]. split; [exact Hcond |].
  rewrite Hd1.
  destruct (modify_remote_system_required_dict
              d (modify_remote_sys_dict_of params)) as (b & -> & Hb).
  f_equal. apply Hb. exists key. exact Hdiff.
Qed.

(** X13: Modify without waiting: the answer of the modify call is reported as
    [job_details] and nothing is fetched again.  A truthy answer leaves the
    details out; after a falsy answer the details reported are the record
    as it was before the modify. *)
Theorem modify_without_waiting (params : module_params) (l : locals)
  (tr0 : list call) (d : dict) (id : pyval) (key : string) :
  state params = "present" ->
  lookup_phase HTTP_ERR client params [] = (Return l, tr0) ->
  remote_sys_details l = PDict d ->
  is_remote_system d = true ->
  name_matches params d ->
  dict_get "id" d = Some id ->
  differing d (modify_remote_sys_dict_of params) key ->
  is_async_of params = true ->
  let m := protection_modify_remote_system
             (resolved_id params id) (modify_remote_sys_dict_of params) true in
  perform_module_operation HTTP_ERR client params [] =
  (match client tr0 m with
   | inr resp =>
       SystemExit
         (ExitJson
            (if truthy resp
             then [ ("changed", PBool true); ("job_details", resp) ]
             else [ ("changed", PBool true); ("job_details", resp);
                    ("remote_system_details", PDict d) ]))
   | inl e => SystemExit (FailJson (Modify_failed (resolved_id params id) e))
   end, tr0 ++ [m]).
Proof.
  intros Hs Hl Hd Hrs Hm Hid Hdiff Ha m.
  rewrite (perform_after_lookup _ _ _ _ _ _ Hl).
  apply lookup_phase_inv in Hl as (Hl & _ & _). rewrite Hd in Hl.
  destruct (reconcile_modifying params l d tr0 id key Hs Hl Hrs Hm Hid Hdiff)
    as (l1 & -> & Hd1 & Hc1 & Hj1 & Hi1 & Hcond & Hr).
  unfold bind. rewrite (modify_block_required_eq params l1 tr0 Hcond Hr).
  rewrite Hi1, Ha. fold m.
  destruct (client tr0 m) as [e|resp]; [reflexivity |].
  rewrite report_run. cbn. rewrite Hd1.
  destruct (truthy resp); reflexivity.
Qed.

(** X14: Modify and wait: after the modify call the module fetches the record
    again, by the resolved id, and reports what it fetched, with
    [job_details = None]; a 404 on that fetch is reported as
    [remote_system_details = None], any other failure ends in
    [fail_json].  The answer of the modify call itself is not reported. *)
Theorem modify_and_wait (params : module_params) (l : locals)
  (tr0 : list call) (d : dict) (id : pyval) (key : string) (resp : pyval) :
  state params = "present" ->
  lookup_phase HTTP_ERR client params [] = (Return l, tr0) ->
  remote_sys_details l = PDict d ->
  is_remote_system d = true ->
  name_matches params d ->
  dict_get "id" d = Some id ->
  differing d (modify_remote_sys_dict_of params) key ->
  is_async_of params = false ->
  let m := protection_modify_remote_system
             (resolved_id params id) (modify_remote_sys_dict_of params) false
  in
  let f := protection_get_remote_system_details (resolved_id params id) in
  client tr0 m = inr resp ->
  perform_module_operation HTTP_ERR client params [] =
  (match client (tr0 ++ [m]) f with
   | inr details =>
       SystemExit
         (ExitJson [ ("changed", PBool true); ("job_details", PNone);
                     ("remote_system_details", details) ])
   | inl e =>
       if is_not_found HTTP_ERR e
       then SystemExit
              (ExitJson [ ("changed", PBool true); ("job_details", PNone);
                          ("remote_system_details", PNone) ])
       else SystemExit
              (FailJson (Get_details_failed PNone (resolved_id params id) e))
   end, tr0 ++ [m; f]).
Proof.
  intros Hs Hl Hd Hrs Hm Hid Hdiff Ha m f Hx.
  rewrite (perform_after_lookup _ _ _ _ _ _ Hl).
  apply lookup_phase_inv in Hl as (Hl & _ & _). rewrite Hd in Hl.
  destruct (reconcile_modifying params l d tr0 id key Hs Hl Hrs Hm Hid Hdiff)
    as (l1 & -> & Hd1 & Hc1 & Hj1 & Hi1 & Hcond & Hr).
  unfold bind at 1. rewrite (modify_block_required_eq params l1 tr0 Hcond Hr).
  rewrite Hi1, Ha. fold m. rewrite Hx.
  unfold bind at 1. rewrite lookup_by_id by reflexivity. fold f.
  rewrite <- app_assoc. cbn [app].
  destruct (client (tr0 ++ [m]) f) as [e|details].
  - destruct (is_not_found HTTP_ERR e); [| reflexivity].
    unfold ret. rewrite report_run. cbn. rewrite Hj1. reflexivity.
  - unfold ret. rewrite report_run. cbn. rewrite Hj1. reflexivity.
Qed.

End FoundAndCreated.

Section Created.

Variable HTTP_ERR : Z.
Variable client : array_client.

(** The create block when every call goes through. *)
Lemma create_block_success (params : module_params) (l : locals)
  (tr : list call) (v resp id details id' : pyval) :
  negb (truthy (remote_sys_details l))
    && String.eqb (state params) "present" = true ->
  truthy (remote_sys_id l) || truthy (remote_sys_name l) = false ->
  let x := configuration_exchange_certificate
             [ ("address", remote_sys_address l);
               ("port", PInt (remote_port params));
               ("username", of_ostr (remote_user params));
               ("password", of_ostr (remote_password params));
               ("service", PStr "Replication_HTTP") ] in
  let c := protection_create_remote_system
             [ ("management_address", remote_sys_address l);
               ("description", of_ostr (description params));
               ("data_network_latency", of_ostr (network_latency params)) ] in
  let f := protection_get_remote_system_details id in
  client tr x = inr v ->
  client (tr ++ [x]) c = inr resp ->
  py_get resp "id" = inr id ->
  client (tr ++ [x; c]) f = inr details ->
  py_getitem details "id" = inr id' ->
  create_block client params l tr =
  (Return (set_remote_sys_id
             (set_remote_sys_details (set_changed l true) details) id'),
   tr ++ [x; c; f]).
Proof.
  intros Hc Hid x c f Hx Hcr Hget Hf Hid'.
  unfold create_block. rewrite Hc, Hid.
  unfold bind at 1. unfold ret at 1. unfold bind at 1.
  rewrite exchange_certificates_run. fold x. rewrite Hx.
  unfold bind at 1. unfold create_remote_system. msimpl.
  fold c. rewrite Hcr. msimpl. rewrite Hget. msimpl.
  rewrite <- app_assoc. cbn [app]. fold f. rewrite Hf. msimpl.
  rewrite Hid'. msimpl. rewrite <- !app_assoc. reflexivity.
Qed.

(** X15: A successful creation: exchange, create, then a fetch by the id of the
    create answer; when the fetched record has nothing that differs from
    what the play asks, the module exits with [changed = True] and the
    fetched record. *)
Theorem create_success (params : module_params) (l : locals)
  (tr0 : list call) (v resp id id' : pyval) (d : dict) :
  state params = "present" ->
  lookup_phase HTTP_ERR client params [] = (Return l, tr0) ->
  truthy (remote_sys_details l) = false ->
  truthy (of_ostr (remote_id params))
    || truthy (of_ostr (remote_name params)) = false ->
  let x := configuration_exchange_certificate
             [ ("address", of_ostr (remote_address params));
               ("port", PInt (remote_port params));
               ("username", of_ostr (remote_user params));
               ("password", of_ostr (remote_password params));
               ("service", PStr "Replication_HTTP") ] in
  let c := protection_create_remote_system
             [ ("management_address", of_ostr (remote_address params));
               ("description", of_ostr (description params));
               ("data_network_latency", of_ostr (network_latency params)) ] in
  let f := protection_get_remote_system_details id in
  client tr0 x = inr v ->
  client (tr0 ++ [x]) c = inr resp ->
  py_get resp "id" = inr id ->
  client (tr0 ++ [x; c]) f = inr (PDict d) ->
  dict_get "id" d = Some id' ->
  (forall key, ~ differing d (modify_remote_sys_dict_of params) key) ->
  perform_module_operation HTTP_ERR client params [] =
  (SystemExit
     (ExitJson [ ("changed", PBool true); ("job_details", PNone);
                 ("remote_system_details", PDict d) ]),
   tr0 ++ [x; c; f]).
Proof.
  intros Hs Hl Hd Hid x c f Hx Hcr Hget Hf Hid' Hsame.
  rewrite (perform_after_lookup _ _ _ _ _ _ Hl).
  apply lookup_phase_inv in Hl as (Hl & _ & _).
  assert (Ha : remote_sys_address l = of_ostr (remote_address params))
    by (rewrite Hl; reflexivity).
  assert (Hidl : truthy (remote_sys_id l) || truthy (remote_sys_name l) = false)
    by (rewrite Hl; exact Hid).
  assert (Hj : job_id l = PNone) by (rewrite Hl; reflexivity).
  assert (Hcond : negb (truthy (remote_sys_details l))
                  && String.eqb (state params) "present" = true)
    by (rewrite Hd, Hs; reflexivity).
  unfold reconcile. unfold bind at 1.
  rewrite (backfill_identifiers_skip l tr0 Hd).
  unfold bind at 1.
  rewrite (create_block_success params l tr0 v resp id (PDict d) id' Hcond Hidl);
    rewrite ?Ha; fold x c f; try assumption;
    [| cbn; rewrite Hid'; reflexivity].
  unfold bind at 1.
  rewrite delete_block_skip by (rewrite Hs; apply andb_false_r).
  unfold bind.
  rewrite modify_block_not_required.
  - rewrite report_run. cbn. rewrite Hj. reflexivity.
  - cbn [remote_sys_details set_remote_sys_id set_remote_sys_details].
    rewrite (truthy_dict_get _ _ _ Hid'), Hs. reflexivity.
  - cbn [remote_sys_details set_remote_sys_id set_remote_sys_details].
    destruct (modify_remote_system_required_dict
                d (modify_remote_sys_dict_of params)) as (b & -> & Hb).
    destruct b; [| reflexivity]. exfalso.
    destruct (proj1 Hb eq_refl) as (key & Hk). exact (Hsame key Hk).
Qed.

(** X16: A creation is followed by the update block, run on the fetched record:
    when a field the play gives (a [new_remote_address], say) differs from
    it, the module goes on to a modify call, addressed to the id of the
    fetched record.  These three are then the calls of the run that change
    the array. *)
Theorem create_then_modify (params : module_params) (l : locals)
  (tr0 : list call) (v resp id id' : pyval) (d : dict) (key : string) :
  state params = "present" ->
  lookup_phase HTTP_ERR client params [] = (Return l, tr0) ->
  truthy (remote_sys_details l) = false ->
  truthy (of_ostr (remote_id params))
    || truthy (of_ostr (remote_name params)) = false ->
  let x := configuration_exchange_certificate
             [ ("address", of_ostr (remote_address params));
               ("port", PInt (remote_port params));
               ("username", of_ostr (remote_user params));
               ("password", of_ostr (remote_password params));
               ("service", PStr "Replication_HTTP") ] in
  let c := protection_create_remote_system
             [ ("management_address", of_ostr (remote_address params));
               ("description", of_ostr (description params));
               ("data_network_latency", of_ostr (network_latency params)) ] in
  let f := protection_get_remote_system_details id in
  let m := protection_modify_remote_system
             id' (modify_remote_sys_dict_of params) (is_async_of params) in
  client tr0 x = inr v ->
  client (tr0 ++ [x]) c = inr resp ->
  py_get resp "id" = inr id ->
  client (tr0 ++ [x; c]) f = inr (PDict d) ->
  dict_get "id" d = Some id' ->
  differing d (modify_remote_sys_dict_of params) key ->
  exists out ext,
    perform_module_operation HTTP_ERR client params []
    = (out, tr0 ++ [x; c; f] ++ m :: ext) /\
    calls_of is_mutation (tr0 ++ [x; c; f] ++ m :: ext) = [x; c; m].
Proof.
  intros Hs Hl Hd Hid x c f m Hx Hcr Hget Hf Hid' Hdiff.
  pose proof (lookup_phase_no_mutation _ _ _ _ _ Hl) as Hnm.
  rewrite (perform_after_lookup _ _ _ _ _ _ Hl).
  apply lookup_phase_inv in Hl as (Hl & _ & _).
  assert (Ha : remote_sys_address l = of_ostr (remote_address params))
    by (rewrite Hl; reflexivity).
  assert (Hidl : truthy (remote_sys_id l) || truthy (remote_sys_name l) = false)
    by (rewrite Hl; exact Hid).
  assert (Hcond : negb (truthy (remote_sys_details l))
                  && String.eqb (state params) "present" = true)
    by (rewrite Hd, Hs; reflexivity).
  unfold reconcile. unfold bind at 1.
  rewrite (backfill_identifiers_skip l tr0 Hd).
  unfold bind at 1.
  rewrite (create_block_success params l tr0 v resp id (PDict d) id' Hcond Hidl);
    rewrite ?Ha; fold x c f; try assumption;
    [| cbn; rewrite Hid'; reflexivity].
  unfold bind at 1.
  rewrite delete_block_skip by (rewrite Hs; apply andb_false_r).
  set (l2 := set_remote_sys_id _ _).
  assert (Hc2 : truthy (remote_sys_details l2)
                && String.eqb (state params) "present" = true).
  { cbn [l2 remote_sys_details set_remote_sys_id set_remote_sys_details].
    rewrite (truthy_dict_get _ _ _ Hid'), Hs. reflexivity. }
  assert (Hr2 : modify_remote_system_required
                  (remote_sys_details l2) (modify_remote_sys_dict_of params)
                = inr true).
  { cbn [l2 remote_sys_details set_remote_sys_id set_remote_sys_details].
    destruct (modify_remote_system_required_dict
                d (modify_remote_sys_dict_of params)) as (b & -> & Hb).
    f_equal. apply Hb. exists key. exact Hdiff. }
  destruct (modify_block_required HTTP_ERR client params l2
              (tr0 ++ [x; c; f]) Hc2 Hr2)
    as (o & ext & Hrun & Hext & _).
  change (remote_sys_id l2) with id' in Hrun. fold m in Hrun.
  unfold bind. rewrite Hrun. rewrite <- !app_assoc.
  exists (match o with
          | Return a => fst (report a (tr0 ++ [x; c; f] ++ m :: ext))
          | Raise e => Raise e
          | SystemExit y => SystemExit y
          end), ext.
  split; [destruct o; try reflexivity; rewrite !report_run; reflexivity |].
  rewrite !calls_of_app, Hnm. cbn.
  change (filter is_mutation ext) with (calls_of is_mutation ext).
  rewrite (calls_of_none _ _ Hext). reflexivity.
Qed.

End Created.

(** ** The further theorems on sample runs *)

Lemma absent_run_only_deletes_witness :
  let tr := [ provisioning_get_cluster_list;
              protection_get_remote_system_details (PStr "abc");
              protection_delete_remote_system (PStr "abc") true ] in
  absent_pattern (calls_of is_mutation tr) = true /\
  calls_of is_exchange tr = [] /\
  calls_of is_create tr = [] /\
  calls_of is_modify tr = [].
Proof.
  intros tr.
  apply (absent_run_only_deletes 1 array_with_peer
           (with_id "abc" (play "absent"))
           (SystemExit
              (ExitJson [ ("changed", PBool true);
                          ("job_details", sample_job) ])) tr);
    reflexivity.
Defined.

Lemma present_run_never_deletes_witness :
  let tr := [ provisioning_get_cluster_list;
              protection_get_remote_system_by_mgmt_address (PStr "10.1.1.1");
              configuration_exchange_certificate
                [ ("address", PStr "10.1.1.1"); ("port", PInt 443);
                  ("username", PStr "admin"); ("password", PStr "x");
                  ("service", PStr "Replication_HTTP") ];
              protection_create_remote_system
                [ ("management_address", PStr "10.1.1.1");
                  ("description", PNone); ("data_network_latency", PNone) ];
              protection_get_remote_system_details (PStr "abc") ] in
  present_pattern (calls_of is_mutation tr) = true /\
  calls_of is_delete tr = [].
Proof.
  intros tr.
  apply (present_run_never_deletes 1 (array_without_peer 1)
           (with_credentials "admin" "x"
              (with_address "10.1.1.1" (play "present")))
           (SystemExit
              (ExitJson [ ("changed", PBool true); ("job_details", PNone);
                          ("remote_system_details", PDict sample_details) ]))
           tr);
    reflexivity.
Defined.

Lemma changed_iff_mutated_witness :
  let result := [ ("changed", PBool false); ("job_details", PNone);
                  ("remote_system_details", PDict sample_details) ] in
  let tr := [ provisioning_get_cluster_list;
              protection_get_remote_system_details (PStr "abc") ] in
  exists b,
    dict_get "changed" result = Some (PBool b) /\
    (b = true <-> calls_of is_mutation tr <> []).
Proof.
  intros result tr.
  apply (changed_iff_mutated 1 array_with_peer
           (with_id "abc" (play "present")) result tr).
  reflexivity.
Defined.

Lemma cluster_query_then_lookup_witness :
  let params := with_id "abc" (play "absent") in
  let tr := [ provisioning_get_cluster_list;
              protection_get_remote_system_details (PStr "abc");
              protection_delete_remote_system (PStr "abc") true ] in
  exists rest,
    tr = provisioning_get_cluster_list :: rest /\
    (rest = [] \/ exists rest', rest = lookup_call params :: rest').
Proof.
  intros params tr.
  apply (cluster_query_then_lookup 1 array_with_peer params
           (SystemExit
              (ExitJson [ ("changed", PBool true);
                          ("job_details", sample_job) ])) tr).
  reflexivity.
Defined.

Lemma no_active_cluster_is_fatal_witness :
  perform_module_operation 1 array_without_cluster
    (with_address "10.1.1.1" (play "present")) [] =
  (SystemExit (FailJson No_active_cluster), [provisioning_get_cluster_list]).
Proof.
  apply (no_active_cluster_is_fatal 1 array_without_cluster
           (with_address "10.1.1.1" (play "present")) (PList []));
    reflexivity.
Defined.

Lemma cluster_query_failure_is_fatal_witness :
  perform_module_operation 1 array_unreachable
    (with_address "10.1.1.1" (play "present")) [] =
  (SystemExit
     (FailJson (Get_clusters_failed (OtherException "connection refused"))),
   [provisioning_get_cluster_list]).
Proof.
  apply (cluster_query_failure_is_fatal 1 array_unreachable
           (with_address "10.1.1.1" (play "present"))
           (OtherException "connection refused")).
  reflexivity.
Defined.

Lemma name_alone_is_rejected_witness :
  perform_module_operation 1 array_with_peer
    (with_name "peer" (play "absent")) [] =
  (SystemExit (FailJson Name_without_address_or_id),
   [provisioning_get_cluster_list]).
Proof.
  apply (name_alone_is_rejected 1 array_with_peer
           (with_name "peer" (play "absent"))
           [provisioning_get_cluster_list]);
    reflexivity.
Defined.

Lemma lookup_by_address_witness :
  get_remote_system_details 1 (array_without_peer 1)
    PNone (PStr "10.9.9.9") PNone [provisioning_get_cluster_list] =
  (Return (PList []),
   [ provisioning_get_cluster_list;
     protection_get_remote_system_by_mgmt_address (PStr "10.9.9.9") ]).
Proof.
  apply (lookup_by_address 1 (array_without_peer 1)
           PNone (PStr "10.9.9.9") PNone [provisioning_get_cluster_list] []);
    reflexivity.
Defined.

Lemma create_then_fetch_failure_witness :
  let c := protection_create_remote_system
             [ ("management_address", PStr "10.1.1.1");
               ("description", PNone); ("data_network_latency", PNone) ] in
  create_remote_system (array_not_listing_created 1)
    (PStr "10.1.1.1") PNone PNone [] =
  (SystemExit
     (FailJson (Create_failed (PowerStoreException (PInt 1) (PStr "404")))),
   [c; protection_get_remote_system_details (PStr "abc")]).
Proof.
  intros c.
  apply (create_then_fetch_failure (array_not_listing_created 1)
           (PStr "10.1.1.1") PNone PNone []
           (PDict [("id", PStr "abc")]) (PStr "abc")
           (PowerStoreException (PInt 1) (PStr "404")));
    reflexivity.
Defined.

Lemma create_answer_without_get_witness :
  let c := protection_create_remote_system
             [ ("management_address", PStr "10.1.1.1");
               ("description", PNone); ("data_network_latency", PNone) ] in
  create_remote_system (fun _ _ => inr PNone)
    (PStr "10.1.1.1") PNone PNone [] =
  (SystemExit (FailJson (Create_failed AttributeError)), [c]).
Proof.
  intros c.
  apply (create_answer_without_get (fun _ _ => inr PNone)
           (PStr "10.1.1.1") PNone PNone [] PNone).
  - reflexivity.
  - discriminate.
Defined.

Lemma found_record_without_id_raises_witness :
  let tr0 := [ provisioning_get_cluster_list;
               protection_get_remote_system_by_mgmt_address (PStr "10.1.1.1") ]
  in
  perform_module_operation 1 array_with_partial_record
    (with_address "10.1.1.1" (play "present")) [] =
  (Raise (KeyError (PStr "id")), tr0) /\
  calls_of is_mutation tr0 = [].
Proof.
  intros tr0.
  apply (found_record_without_id_raises 1 array_with_partial_record
           (with_address "10.1.1.1" (play "present"))
           (set_remote_sys_details
              (collect_input (with_address "10.1.1.1" (play "present")))
              (PDict [("name", PStr "peer")]))
           tr0 [("name", PStr "peer")]).
  - reflexivity.
  - reflexivity.
  - discriminate.
  - reflexivity.
  - reflexivity.
Defined.

Lemma delete_path_witness :
  perform_module_operation 1 array_with_peer
    (with_id "abc" (play "absent")) [] =
  (SystemExit
     (ExitJson [ ("changed", PBool true); ("job_details", sample_job) ]),
   [ provisioning_get_cluster_list;
     protection_get_remote_system_details (PStr "abc");
     protection_delete_remote_system (PStr "abc") true ]).
Proof.
  apply (delete_path 1 array_with_peer (with_id "abc" (play "absent"))
           (set_remote_sys_details
              (collect_input (with_id "abc" (play "absent")))
              (PDict sample_details))
           [ provisioning_get_cluster_list;
             protection_get_remote_system_details (PStr "abc") ]
           sample_details (PStr "abc")).
  - reflexivity.
  - reflexivity.
  - reflexivity.
  - reflexivity.
  - intros H. discriminate H.
  - reflexivity.
Defined.

Lemma modify_without_waiting_witness :
  perform_module_operation 1 array_with_peer
    (with_description "new" (with_id "abc" (play "present"))) [] =
  (SystemExit
     (ExitJson [ ("changed", PBool true); ("job_details", sample_job) ]),
   [ provisioning_get_cluster_list;
     protection_get_remote_system_details (PStr "abc");
     protection_modify_remote_system (PStr "abc")
       [ ("management_address", PNone); ("description", PStr "new");
         ("data_network_latency", PNone) ] true ]).
Proof.
  apply (modify_without_waiting 1 array_with_peer
           (with_description "new" (with_id "abc" (play "present")))
           (set_remote_sys_details
              (collect_input
                 (with_description "new" (with_id "abc" (play "present"))))
              (PDict sample_details))
           [ provisioning_get_cluster_list;
             protection_get_remote_system_details (PStr "abc") ]
           sample_details (PStr "abc") "description").
  - reflexivity.
  - reflexivity.
  - reflexivity.
  - reflexivity.
  - intros H. discriminate H.
  - reflexivity.
  - exists (PStr "old"), (PStr "new").
    split; [reflexivity |]. split; [reflexivity |].
    split; [discriminate | reflexivity].
  - reflexivity.
Defined.

Lemma modify_and_wait_witness :
  perform_module_operation 1 array_with_peer
    (waiting true (with_description "new" (with_id "abc" (play "present"))))
    [] =
  (SystemExit
     (ExitJson [ ("changed", PBool true); ("job_details", PNone);
                 ("remote_system_details", PDict sample_details) ]),
   [ provisioning_get_cluster_list;
     protection_get_remote_system_details (PStr "abc");
     protection_modify_remote_system (PStr "abc")
       [ ("management_address", PNone); ("description", PStr "new");
         ("data_network_latency", PNone) ] false;
     protection_get_remote_system_details (PStr "abc") ]).
Proof.
  apply (modify_and_wait 1 array_with_peer
           (waiting true
              (with_description "new" (with_id "abc" (play "present"))))
           (set_remote_sys_details
              (collect_input
                 (waiting true
                    (with_description "new"
                       (with_id "abc" (play "present")))))
              (PDict sample_details))
           [ provisioning_get_cluster_list;
             protection_get_remote_system_details (PStr "abc") ]
           sample_details (PStr "abc") "description" sample_job).
  - reflexivity.
  - reflexivity.
  - reflexivity.
  - reflexivity.
  - intros H. discriminate H.
  - reflexivity.
  - exists (PStr "old"), (PStr "new").
    split; [reflexivity |]. split; [reflexivity |].
    split; [discriminate | reflexivity].
  - reflexivity.
  - reflexivity.
Defined.

Lemma create_success_witness :
  perform_module_operation 1 (array_without_peer 1)
    (with_credentials "admin" "x" (with_address "10.1.1.1" (play "present")))
    [] =
  (SystemExit
     (ExitJson [ ("changed", PBool true); ("job_details", PNone);
                 ("remote_system_details", PDict sample_details) ]),
   [ provisioning_get_cluster_list;
     protection_get_remote_system_by_mgmt_address (PStr "10.1.1.1") ]
   ++ [ configuration_exchange_certificate
          [ ("address", PStr "10.1.1.1"); ("port", PInt 443);
            ("username", PStr "admin"); ("password", PStr "x");
            ("service", PStr "Replication_HTTP") ];
        protection_create_remote_system
          [ ("management_address", PStr "10.1.1.1"); ("description", PNone);
            ("data_network_latency", PNone) ];
        protection_get_remote_system_details (PStr "abc") ]).
Proof.
  apply (create_success 1 (array_without_peer 1)
           (with_credentials "admin" "x"
              (with_address "10.1.1.1" (play "present")))
           (set_remote_sys_details
              (collect_input
                 (with_credentials "admin" "x"
                    (with_address "10.1.1.1" (play "present"))))
              (PList []))
           [ provisioning_get_cluster_list;
             protection_get_remote_system_by_mgmt_address (PStr "10.1.1.1") ]
           PNone (PDict [("id", PStr "abc")]) (PStr "abc") (PStr "abc")
           sample_details).
  - reflexivity.
  - reflexivity.
  - reflexivity.
  - reflexivity.
  - reflexivity.
  - reflexivity.
  - reflexivity.
  - reflexivity.
  - reflexivity.
  - intros key (cur & arg & _ & H2 & H3 & _). cbn in H2.
    destruct (String.eqb key "management_address");
      [injection H2 as <-; apply H3; reflexivity |].
    destruct (String.eqb key "description");
      [injection H2 as <-; apply H3; reflexivity |].
    destruct (String.eqb key "data_network_latency");
      [injection H2 as <-; apply H3; reflexivity | discriminate].
Defined.

Lemma create_then_modify_witness :
  let params :=
    with_new_address "10.2.2.2"
      (with_credentials "admin" "x" (with_address "10.1.1.1" (play "present")))
  in
  let tr0 := [ provisioning_get_cluster_list;
               protection_get_remote_system_by_mgmt_address (PStr "10.1.1.1") ]
  in
  let x := configuration_exchange_certificate
             [ ("address", PStr "10.1.1.1"); ("port", PInt 443);
               ("username", PStr "admin"); ("password", PStr "x");
               ("service", PStr "Replication_HTTP") ] in
  let c := protection_create_remote_system
             [ ("management_address", PStr "10.1.1.1");
               ("description", PNone); ("data_network_latency", PNone) ] in
  let f := protection_get_remote_system_details (PStr "abc") in
  let m := protection_modify_remote_system (PStr "abc")
             [ ("management_address", PStr "10.2.2.2");
               ("description", PNone); ("data_network_latency", PNone) ]
             true in
  exists out ext,
    perform_module_operation 1 (array_without_peer 1) params []
    = (out, tr0 ++ [x; c; f] ++ m :: ext) /\
    calls_of is_mutation (tr0 ++ [x; c; f] ++ m :: ext) = [x; c; m].
Proof.
  intros params tr0 x c f m.
  apply (create_then_modify 1 (array_without_peer 1) params
           (set_remote_sys_details (collect_input params) (PList []))
           tr0 PNone (PDict [("id", PStr "abc")]) (PStr "abc") (PStr "abc")
           sample_details "management_address").
  - reflexivity.
  - reflexivity.
  - reflexivity.
  - reflexivity.
  - reflexivity.
  - reflexivity.
  - reflexivity.
  - reflexivity.
  - reflexivity.
  - exists (PStr "10.1.1.1"), (PStr "10.2.2.2").
    split; [reflexivity |]. split; [reflexivity |].
    split; [discriminate | reflexivity].
Defined.

(** C3, as the claim words it, fails: the claim does not ask that a given
    [remote_name] be the name of the found system.  The play gives the id of
    the registered peer, another name, and no field to change: the state is
    present, the lookup finds the record, every field of the candidate dict
    is [None]; and the run ends in [fail_json] at the name cross-check, not
    in an exit with [changed = False]. *)
Lemma noop_claim_fails_on_name_mismatch :
  let params := with_name "other" (with_id "abc" (play "present")) in
  let tr0 := [ provisioning_get_cluster_list;
               protection_get_remote_system_details (PStr "abc") ] in
  state params = "present" /\
  (exists l,
     lookup_phase 1 array_with_peer params [] = (Return l, tr0) /\
     remote_sys_details l = PDict sample_details) /\
  (forall key arg,
     dict_get key (modify_remote_sys_dict_of params) = Some arg ->
     arg = PNone \/
     exists cur, dict_get key sample_details = Some cur /\
                 py_eq cur arg = true) /\
  perform_module_operation 1 array_with_peer params [] =
  (SystemExit (FailJson Remote_name_not_matching), tr0) /\
  ~ (exists result tr,
       perform_module_operation 1 array_with_peer params [] =
       (SystemExit (ExitJson result), tr) /\
       dict_get "changed" result = Some (PBool false)).
Proof.
  intros params tr0. split; [reflexivity |]. split; [| split; [| split]].
  - eexists. split; reflexivity.
  - intros key arg. cbn.
    destruct (String.eqb key "management_address");
      [intros [= <-]; left; reflexivity |].
    destruct (String.eqb key "description");
      [intros [= <-]; left; reflexivity |].
    destruct (String.eqb key "data_network_latency");
      [intros [= <-]; left; reflexivity | discriminate].
  - reflexivity.
  - intros (result & tr & Hrun & _). vm_compute in Hrun. discriminate Hrun.
Qed.
